(** * Clinic-assistant dashboards: chat engine, history refresh and slot draft

    A shallow embedding of [PatientDashboard.js] and [DoctorDashboard.js].
    Each React component becomes a record of its [useState] cells; each
    handler becomes a function from the state to the next state and the list
    of effects it performs (requests handed to axios, alerts, console output).
    An [async] handler is cut at its single [await]: the part before it is the
    handler proper, the part after it is the [_settled] continuation, which
    receives the settled promise and the state current at that moment. *)

From Stdlib Require Import NArith ZArith String Ascii List Bool Lia DecimalN.
From stdpp Require Import base option list.
Import ListNotations.

Local Open Scope list_scope.
#[local] Set Warnings "-register-all".

(** ** The fragment of JavaScript the components use *)

Module Js.

(** A JavaScript string is a sequence of UTF-16 code units. *)
Definition jsstring : Type := list N.

(** An ASCII literal of the source, as code units. *)
Definition str (s : string) : jsstring :=
  List.map N_of_ascii (list_ascii_of_string s).

(** ECMAScript [WhiteSpace] and [LineTerminator] code points, the ones
    [String.prototype.trim] strips. All of them lie in the BMP. *)
Definition isWhiteSpace (c : N) : bool :=
  (  (c =? 0x0009) || (c =? 0x000A) || (c =? 0x000B) || (c =? 0x000C)
  || (c =? 0x000D) || (c =? 0x0020) || (c =? 0x00A0) || (c =? 0x1680)
  || ((0x2000 <=? c) && (c <=? 0x200A))
  || (c =? 0x2028) || (c =? 0x2029) || (c =? 0x202F) || (c =? 0x205F)
  || (c =? 0x3000) || (c =? 0xFEFF))%N.

Fixpoint trimStart (s : jsstring) : jsstring :=
  match s with
  | [] => []
  | c :: s' => if isWhiteSpace c then trimStart s' else s
  end.

Definition trimEnd (s : jsstring) : jsstring := rev (trimStart (rev s)).

(** [s.trim()] *)
Definition trim (s : jsstring) : jsstring := trimEnd (trimStart s).

(** Values that cross the component's boundary: JSON bodies, plus
    [undefined] for what a property read yields when nothing is there.
    Only the zero-ness of a number is ever observed, so integers stand for
    numbers. *)
Inductive value : Type :=
| undefined
| null
| boolean (b : bool)
| number (n : Z)
| text (s : jsstring)
| array (items : list value)
| object (fields : list (jsstring * value)).

(** [ToBoolean] *)
Definition truthy (v : value) : bool :=
  match v with
  | undefined | null => false
  | boolean b => b
  | number n => negb (n =? 0)%Z
  | text s => match s with [] => false | _ => true end
  | array _ | object _ => true
  end.

(** [a || b] *)
Definition or_else (a b : value) : value := if truthy a then a else b.

Fixpoint lookup_field (k : jsstring) (fields : list (jsstring * value)) : value :=
  match fields with
  | [] => undefined
  | (k', v) :: rest => if bool_decide (k' = k) then v else lookup_field k rest
  end.

(** [v.k] for a key that no built-in prototype defines (the program reads
    only [response] and [detail] this way). [None] is the [TypeError] of
    reading a property of [undefined] or [null]. *)
Definition get (v : value) (k : jsstring) : option value :=
  match v with
  | undefined | null => None
  | object fields => Some (lookup_field k fields)
  | boolean _ | number _ | text _ | array _ => Some undefined
  end.

(** [v?.k] *)
Definition get_opt (v : value) (k : jsstring) : value :=
  match v with
  | undefined | null => undefined
  | _ => default undefined (get v k)
  end.

Fixpoint digits (u : Decimal.uint) : jsstring :=
  match u with
  | Decimal.Nil => []
  | Decimal.D0 u => 48%N :: digits u
  | Decimal.D1 u => 49%N :: digits u
  | Decimal.D2 u => 50%N :: digits u
  | Decimal.D3 u => 51%N :: digits u
  | Decimal.D4 u => 52%N :: digits u
  | Decimal.D5 u => 53%N :: digits u
  | Decimal.D6 u => 54%N :: digits u
  | Decimal.D7 u => 55%N :: digits u
  | Decimal.D8 u => 56%N :: digits u
  | Decimal.D9 u => 57%N :: digits u
  end.

(** [`${n}`] for a non-negative integer such as [Date.now()]. *)
Definition Number_toString (n : N) : jsstring := digits (N.to_uint n).

(** [`${v}`] for what [localStorage.getItem] returns: a string or [null]. *)
Definition item_toString (v : option jsstring) : jsstring :=
  match v with
  | Some s => s
  | None => str "null"
  end.

(** [Array.prototype.filter], [map] and [every]; the callback of the first
    two also receives the index. *)
Fixpoint filter_from {A} (i : nat) (p : A -> nat -> bool) (l : list A) : list A :=
  match l with
  | [] => []
  | x :: l' => if p x i then x :: filter_from (S i) p l' else filter_from (S i) p l'
  end.

Definition Array_filter {A} (p : A -> nat -> bool) (l : list A) : list A :=
  filter_from 0 p l.

Fixpoint map_from {A B} (i : nat) (f : A -> nat -> B) (l : list A) : list B :=
  match l with
  | [] => []
  | x :: l' => f x i :: map_from (S i) f l'
  end.

Definition Array_map {A B} (f : A -> nat -> B) (l : list A) : list B :=
  map_from 0 f l.

Definition Array_every {A} (p : A -> bool) (l : list A) : bool := forallb p l.

End Js.
Import Js.

(** ** axios and the other ambient collaborators *)

Module Axios.

(** What a settled request hands back; only [data] is read. *)
Record Response : Type := mkResponse { data : value }.

(** What the [catch] clauses receive. [response] is absent for a network
    error (and for any thrown error that is not axios's). *)
Record AxiosError : Type := mkError { response : option Response }.

Inductive Settled : Type :=
| Fulfilled (r : Response)
| Rejected (e : AxiosError).

(** [error.response?.data?.detail] *)
Definition error_detail (err : AxiosError) : value :=
  match response err with
  | None => undefined
  | Some r => get_opt (data r) (str "detail")
  end.

End Axios.
Import Axios.

(** Everything a handler does besides updating React state, in program order. *)
Inductive Effect : Type :=
| axios_get (url : jsstring) (config : value)
| axios_post (url : jsstring) (body : value) (config : value)
| alert (message : value)
| console_error (label : jsstring) (err : AxiosError)
| console_log (label : jsstring) (r : Response)
| preventDefault.

(** One entry of [chatHistory]: [{ type, message }]. *)
Inductive TurnType : Type := user | assistant | error.

Record Turn : Type := mkTurn { type : TurnType; message : value }.

(** What handling an event leaves behind. The updater handed to
    [setChatHistory] is a closure that React runs when it computes the next
    state; if it throws, the render throws and, there being no error boundary
    (App.js), React unmounts the tree. The effects of the handler itself have
    happened by then. *)
Inductive Result (S : Type) : Type :=
| Rendered (st : S) (out : list Effect)
| Unmounted (out : list Effect).
Arguments Rendered {S} st out.
Arguments Unmounted {S} out.

(** What React accepts as a child in JSX ([{item.message}], [{item.prompt}]):
    strings and numbers are shown, [null], [undefined] and booleans show
    nothing, an array is shown child by child, and a plain object makes the
    render throw. *)
Fixpoint renderable (v : value) : bool :=
  match v with
  | object _ => false
  | array items => forallb renderable items
  | undefined | null | boolean _ | number _ | text _ => true
  end.

(** The chat pane: [chatHistory.map(item => ... {item.message} ...)]. *)
Definition transcript_renders (h : list Turn) : bool :=
  forallb (fun item => renderable (message item)) h.

(** One entry of the history pane: [item.created_at] is read (a [TypeError]
    on [null]; [new Date(...).toLocaleString()] itself never throws), then
    [{item.prompt}] and [{item.response}] are shown. *)
Definition record_renders (item : value) : bool :=
  match item with
  | undefined | null => false
  | _ => renderable (get_opt item (str "prompt"))
         && renderable (get_opt item (str "response"))
  end.

(** The history pane: [history.length === 0 ? <p>...</p> : history.map(...)].
    Reading [length] of [null] throws; a string has its length and no [map];
    a number or boolean has neither; an object has what its fields say, and
    no callable [map]. *)
Definition history_renders (h : value) : bool :=
  match h with
  | array items => forallb record_renders items
  | text s => match s with [] => true | _ :: _ => false end
  | object fields =>
      match lookup_field (str "length") fields with
      | number 0 => true
      | _ => false
      end
  | undefined | null | boolean _ | number _ => false
  end.

Definition is_post (e : Effect) : bool :=
  match e with axios_post _ _ _ => true | _ => false end.

Definition is_get (e : Effect) : bool :=
  match e with axios_get _ _ => true | _ => false end.

(** Requests among the effects. *)
Definition requests (out : list Effect) : list Effect :=
  List.filter (fun e => is_post e || is_get e) out.

(** ** PatientDashboard.js *)

Module PatientDashboard.

(** The [useState] cells of the component. *)
Record State : Type := mkState {
  activeTab : jsstring;
  chatMessage : jsstring;
  chatHistory : list Turn;
  loading : bool;
  appointments : value;
  history : value;
  sessionId : jsstring
}.

Definition setActiveTab (v : jsstring) (st : State) : State :=
  mkState v (chatMessage st) (chatHistory st) (loading st)
          (appointments st) (history st) (sessionId st).

Definition setChatMessage (v : jsstring) (st : State) : State :=
  mkState (activeTab st) v (chatHistory st) (loading st)
          (appointments st) (history st) (sessionId st).

(** Always called with an updater [prev => ...]. *)
Definition setChatHistory (f : list Turn -> list Turn) (st : State) : State :=
  mkState (activeTab st) (chatMessage st) (f (chatHistory st)) (loading st)
          (appointments st) (history st) (sessionId st).

Definition setLoading (v : bool) (st : State) : State :=
  mkState (activeTab st) (chatMessage st) (chatHistory st) v
          (appointments st) (history st) (sessionId st).

Definition setHistory (v : value) (st : State) : State :=
  mkState (activeTab st) (chatMessage st) (chatHistory st) (loading st)
          (appointments st) v (sessionId st).

(** The initial values of the cells, for [user.email] and [Date.now()]. *)
Definition initial (email : jsstring) (now : N) : State :=
  {| activeTab := str "chat";
     chatMessage := str "";
     chatHistory := [];
     loading := false;
     appointments := array [];
     history := array [];
     sessionId := str "patient_" ++ email ++ str "_" ++ Number_toString now |}.

Definition getAuthHeaders (token : option jsstring) : value :=
  object [ (str "Authorization", text (str "Bearer " ++ item_toString token));
           (str "Content-Type", text (str "application/json")) ].

(** [fetchPromptHistory], up to its [await]. *)
Definition fetchPromptHistory (token : option jsstring) : list Effect :=
  [ axios_get (str "http://localhost:8000/prompt_history")
              (object [ (str "headers", getAuthHeaders token) ]) ].

(** [fetchPromptHistory], from its [await] on. *)
Definition fetchPromptHistory_settled (o : Settled) (st : State)
  : State * list Effect :=
  match o with
  | Fulfilled response => (setHistory (data response) st, [])
  | Rejected err => (st, [ console_error (str "Error fetching history:") err ])
  end.

(** [sendMessage], up to its [await]. *)
Definition sendMessage (token : option jsstring) (st : State)
  : State * list Effect :=
  if negb (truthy (text (trim (chatMessage st)))) then (st, [])
  else
    let userMessage := chatMessage st in
    let st := setChatMessage (str "") st in
    let st := setChatHistory
                (fun prev => prev ++ [ {| type := user; message := text userMessage |} ])
                st in
    let st := setLoading true st in
    (st, [ axios_post (str "http://localhost:8000/process_prompt")
                      (object [ (str "text", text userMessage);
                                (str "session_id", text (sessionId st)) ])
                      (object [ (str "headers", getAuthHeaders token) ]) ]).

(** [sendMessage], from its [await] on: the state React computes from the
    handler's calls ([Rendered]: the state it goes on to render; whether that
    render goes through is [renders] below). On fulfilment the updater reads
    [response.data.response] when React runs it; on a body that is [null]
    or [undefined] that read throws there, outside the [try]. *)
Definition sendMessage_settled (token : option jsstring) (o : Settled) (st : State)
  : Result State :=
  match o with
  | Fulfilled response =>
      match get (data response) (str "response") with
      | Some payload =>
          let st := setChatHistory
                      (fun prev => prev ++ [ {| type := assistant; message := payload |} ])
                      st in
          let out := fetchPromptHistory token in
          Rendered (setLoading false st) out
      | None => Unmounted (fetchPromptHistory token)
      end
  | Rejected err =>
      let st := setChatHistory
                  (fun prev => prev ++
                     [ {| type := error;
                          message := or_else (error_detail err)
                                             (text (str "Error processing message")) |} ])
                  st in
      Rendered (setLoading false st) []
  end.

(** The calls [sendMessage] makes after its [await], in program order. The
    updater handed to [setChatHistory] yields [None] where it throws. *)
Inductive Call : Type :=
| call_setChatHistory (updater : list Turn -> option (list Turn))
| call_fetchPromptHistory
| call_setLoading (v : bool).

Definition sendMessage_settled_calls (o : Settled) : list Call :=
  match o with
  | Fulfilled response =>
      [ call_setChatHistory
          (fun prev =>
             match get (data response) (str "response") with
             | Some payload => Some (prev ++ [ {| type := assistant; message := payload |} ])
             | None => None
             end);
        call_fetchPromptHistory;
        call_setLoading false ]
  | Rejected err =>
      [ call_setChatHistory
          (fun prev =>
             Some (prev ++ [ {| type := error;
                                message := or_else (error_detail err)
                                                   (text (str "Error processing message")) |} ]));
        call_setLoading false ]
  end.

(** React working through such calls: [st] is [None] once an updater has
    thrown. *)
Fixpoint perform (token : option jsstring) (calls : list Call)
         (st : option State) (out : list Effect) : Result State :=
  match calls with
  | [] =>
      match st with
      | Some s => Rendered s out
      | None => Unmounted out
      end
  | call_setChatHistory updater :: rest =>
      let st' :=
        match st with
        | Some s =>
            match updater (chatHistory s) with
            | Some h => Some (setChatHistory (fun _ => h) s)
            | None => None
            end
        | None => None
        end in
      perform token rest st' out
  | call_fetchPromptHistory :: rest =>
      perform token rest st (out ++ fetchPromptHistory token)
  | call_setLoading v :: rest =>
      perform token rest (option_map (setLoading v) st) out
  end.

(** Whether the component's render goes through in state [st]: only the
    pane of the active tab is evaluated. (The header shows props only.) *)
Definition renders (st : State) : bool :=
  (negb (bool_decide (activeTab st = str "chat")) || transcript_renders (chatHistory st))
  && (negb (bool_decide (activeTab st = str "history")) || history_renders (history st)).

(** The settlement as the page lives it: the continuation of [sendMessage],
    then the render of the state it leaves. A render that throws unmounts
    the tree. *)
Definition sendMessage_then_render (token : option jsstring) (o : Settled) (st : State)
  : Result State :=
  match sendMessage_settled token o st with
  | Rendered st' out => if renders st' then Rendered st' out else Unmounted out
  | Unmounted out => Unmounted out
  end.

Definition handleKeyPress (token : option jsstring)
           (key : jsstring) (shiftKey : bool) (st : State) : State * list Effect :=
  if bool_decide (key = str "Enter") && negb shiftKey then
    let '(st', out) := sendMessage token st in
    (st', preventDefault :: out)
  else (st, []).

Definition quickActions : list jsstring :=
  [ str "Check Dr. Ahuja availability for 2025-08-24";
    str "Show my appointments today";
    str "Book appointment with Dr. Ahuja on 2025-08-24 at 2PM-3PM" ].

Definition handleQuickAction (action : jsstring) (st : State) : State :=
  setChatMessage action st.

(** The [disabled] attribute of the Send button. *)
Definition send_disabled (st : State) : bool :=
  loading st || negb (truthy (text (trim (chatMessage st)))).

(** What the rendered component reacts to. *)
Inductive Event : Type :=
| click_tab (tab : jsstring)
| click_quick_action (index : nat)
| change_textarea (v : jsstring)
| keypress_textarea (key : jsstring) (shiftKey : bool)
| click_send
| process_prompt_settles (o : Settled)
| prompt_history_settles (o : Settled).

(** The mounted component with its surroundings: the [process_prompt]
    round-trips dispatched and not yet settled, and all effects so far. *)
Record Config : Type := mkConfig {
  ui : State;
  outstanding : nat;
  trace : list Effect
}.

Definition count_posts (out : list Effect) : nat :=
  length (List.filter is_post out).

Definition after (cfg : Config) (r : State * list Effect) : Config :=
  {| ui := fst r;
     outstanding := outstanding cfg + count_posts (snd r);
     trace := trace cfg ++ snd r |}.

(** [useEffect(() => { fetchPromptHistory(); }, [])] runs once on mount. *)
Definition mount (token : option jsstring) (email : jsstring) (now : N) : Config :=
  {| ui := initial email now;
     outstanding := 0;
     trace := fetchPromptHistory token |}.

(** One event. [None]: the render threw and the component is gone. An
    event the page cannot produce (a click on a disabled or absent button,
    a settlement with nothing outstanding) changes nothing. *)
Definition step (token : option jsstring) (ev : Event) (cfg : Config)
  : option Config :=
  let st := ui cfg in
  match ev with
  | click_tab tab => Some (after cfg (setActiveTab tab st, []))
  | click_quick_action index =>
      match quickActions !! index with
      | Some action => Some (after cfg (handleQuickAction action st, []))
      | None => Some cfg
      end
  | change_textarea v => Some (after cfg (setChatMessage v st, []))
  | keypress_textarea key shiftKey =>
      Some (after cfg (handleKeyPress token key shiftKey st))
  | click_send =>
      if send_disabled st then Some cfg
      else Some (after cfg (sendMessage token st))
  | process_prompt_settles o =>
      match outstanding cfg with
      | O => Some cfg
      | S n =>
          match sendMessage_settled token o st with
          | Rendered st' out =>
              Some {| ui := st'; outstanding := n; trace := trace cfg ++ out |}
          | Unmounted _ => None
          end
      end
  | prompt_history_settles o =>
      Some (after cfg (fetchPromptHistory_settled o st))
  end.

Fixpoint run (token : option jsstring) (evs : list Event) (cfg : Config)
  : option Config :=
  match evs with
  | [] => Some cfg
  | ev :: evs' =>
      match step token ev cfg with
      | Some cfg' => run token evs' cfg'
      | None => None
      end
  end.

End PatientDashboard.

(** ** DoctorDashboard.js *)

Module DoctorDashboard.

(** [newSlot]: [{ date, slots }]. *)
Record SlotDraft : Type := mkDraft { date : jsstring; slots : list jsstring }.

Record State : Type := mkState {
  activeTab : jsstring;
  chatMessage : jsstring;
  chatHistory : list Turn;
  loading : bool;
  history : value;
  newSlot : SlotDraft;
  sessionId : jsstring
}.

Definition setActiveTab (v : jsstring) (st : State) : State :=
  mkState v (chatMessage st) (chatHistory st) (loading st)
          (history st) (newSlot st) (sessionId st).

Definition setChatMessage (v : jsstring) (st : State) : State :=
  mkState (activeTab st) v (chatHistory st) (loading st)
          (history st) (newSlot st) (sessionId st).

Definition setChatHistory (f : list Turn -> list Turn) (st : State) : State :=
  mkState (activeTab st) (chatMessage st) (f (chatHistory st)) (loading st)
          (history st) (newSlot st) (sessionId st).

Definition setLoading (v : bool) (st : State) : State :=
  mkState (activeTab st) (chatMessage st) (chatHistory st) v
          (history st) (newSlot st) (sessionId st).

Definition setHistory (v : value) (st : State) : State :=
  mkState (activeTab st) (chatMessage st) (chatHistory st) (loading st)
          v (newSlot st) (sessionId st).

(** Called with an updater [prev => ...], or with a constant. *)
Definition setNewSlot (f : SlotDraft -> SlotDraft) (st : State) : State :=
  mkState (activeTab st) (chatMessage st) (chatHistory st) (loading st)
          (history st) (f (newSlot st)) (sessionId st).

Definition initial (email : jsstring) (now : N) : State :=
  {| activeTab := str "slots";
     chatMessage := str "";
     chatHistory := [];
     loading := false;
     history := array [];
     newSlot := {| date := str ""; slots := [ str "" ] |};
     sessionId := str "doctor_" ++ email ++ str "_" ++ Number_toString now |}.

Definition getAuthHeaders (token : option jsstring) : value :=
  object [ (str "Authorization", text (str "Bearer " ++ item_toString token));
           (str "Content-Type", text (str "application/json")) ].

Definition fetchPromptHistory (token : option jsstring) : list Effect :=
  [ axios_get (str "http://localhost:8000/prompt_history")
              (object [ (str "headers", getAuthHeaders token) ]) ].

Definition fetchPromptHistory_settled (o : Settled) (st : State)
  : State * list Effect :=
  match o with
  | Fulfilled response => (setHistory (data response) st, [])
  | Rejected err => (st, [ console_error (str "Error fetching history:") err ])
  end.

Definition addSlotField (st : State) : State :=
  setNewSlot (fun prev => {| date := date prev; slots := slots prev ++ [ str "" ] |}) st.

Definition removeSlotField (index : nat) (st : State) : State :=
  setNewSlot
    (fun prev => {| date := date prev;
                    slots := Array_filter (fun _ i => negb (i =? index)) (slots prev) |})
    st.

Definition updateSlot (index : nat) (v : jsstring) (st : State) : State :=
  setNewSlot
    (fun prev => {| date := date prev;
                    slots := Array_map (fun slot i => if i =? index then v else slot)
                                       (slots prev) |})
    st.

(** The [onChange] of the date input. *)
Definition changeDate (v : jsstring) (st : State) : State :=
  setNewSlot (fun prev => {| date := v; slots := slots prev |}) st.

(** [addAppointmentSlots], up to its [await]. *)
Definition addAppointmentSlots (token : option jsstring) (st : State)
  : State * list Effect :=
  if negb (truthy (text (date (newSlot st))))
     || Array_every (fun slot => negb (truthy (text (trim slot)))) (slots (newSlot st))
  then (st, [ alert (text (str "Please provide date and at least one time slot")) ])
  else
    let slotsData :=
      object [ (date (newSlot st),
                array (List.map text
                         (Array_filter (fun slot _ => truthy (text (trim slot)))
                                       (slots (newSlot st))))) ] in
    (st, [ axios_post (str "http://localhost:8000/appointments")
                      (object [ (str "slots", slotsData) ])
                      (object [ (str "headers", getAuthHeaders token) ]) ]).

(** [addAppointmentSlots], from its [await] on. *)
Definition addAppointmentSlots_settled (o : Settled) (st : State)
  : State * list Effect :=
  match o with
  | Fulfilled response =>
      (setNewSlot (fun _ => {| date := str ""; slots := [ str "" ] |}) st,
       [ console_log (str "Response:") response;
         alert (text (str "Appointment slots added successfully!")) ])
  | Rejected err =>
      (st, [ alert (or_else (error_detail err) (text (str "Error adding slots"))) ])
  end.

Definition sendMessage (token : option jsstring) (st : State)
  : State * list Effect :=
  if negb (truthy (text (trim (chatMessage st)))) then (st, [])
  else
    let userMessage := chatMessage st in
    let st := setChatMessage (str "") st in
    let st := setChatHistory
                (fun prev => prev ++ [ {| type := user; message := text userMessage |} ])
                st in
    let st := setLoading true st in
    (st, [ axios_post (str "http://localhost:8000/process_prompt")
                      (object [ (str "text", text userMessage);
                                (str "session_id", text (sessionId st)) ])
                      (object [ (str "headers", getAuthHeaders token) ]) ]).

Definition sendMessage_settled (token : option jsstring) (o : Settled) (st : State)
  : Result State :=
  match o with
  | Fulfilled response =>
      match get (data response) (str "response") with
      | Some payload =>
          let st := setChatHistory
                      (fun prev => prev ++ [ {| type := assistant; message := payload |} ])
                      st in
          let out := fetchPromptHistory token in
          Rendered (setLoading false st) out
      | None => Unmounted (fetchPromptHistory token)
      end
  | Rejected err =>
      let st := setChatHistory
                  (fun prev => prev ++
                     [ {| type := error;
                          message := or_else (error_detail err)
                                             (text (str "Error processing message")) |} ])
                  st in
      Rendered (setLoading false st) []
  end.

(** Whether the component's render goes through in state [st]. The slots
    pane shows strings only; the chat transcript is on the statistics pane. *)
Definition renders (st : State) : bool :=
  (negb (bool_decide (activeTab st = str "stats")) || transcript_renders (chatHistory st))
  && (negb (bool_decide (activeTab st = str "history")) || history_renders (history st)).

(** The continuation of [sendMessage], then the render of the state it
    leaves. *)
Definition sendMessage_then_render (token : option jsstring) (o : Settled) (st : State)
  : Result State :=
  match sendMessage_settled token o st with
  | Rendered st' out => if renders st' then Rendered st' out else Unmounted out
  | Unmounted out => Unmounted out
  end.

Definition handleKeyPress (token : option jsstring)
           (key : jsstring) (shiftKey : bool) (st : State) : State * list Effect :=
  if bool_decide (key = str "Enter") && negb shiftKey then
    let '(st', out) := sendMessage token st in
    (st', preventDefault :: out)
  else (st, []).

Definition quickStatsQueries : list jsstring :=
  [ str "How many appointments today?";
    str "Show appointments for today";
    str "How many patients visited yesterday?";
    str "Show fever patients" ].

Definition handleQuickAction (action : jsstring) (st : State) : State :=
  setChatMessage action st.

Definition send_disabled (st : State) : bool :=
  loading st || negb (truthy (text (trim (chatMessage st)))).

(** Whether the slot row [index] exists and shows its Remove button:
    [newSlot.slots.length > 1 && <button ...>] inside [newSlot.slots.map]. *)
Definition remove_rendered (index : nat) (st : State) : bool :=
  (index <? length (slots (newSlot st))) && (1 <? length (slots (newSlot st))).

Inductive Event : Type :=
| click_tab (tab : jsstring)
| change_date (v : jsstring)
| change_slot (index : nat) (v : jsstring)
| click_remove (index : nat)
| click_add_slot
| click_submit
| appointments_settles (o : Settled)
| click_quick_action (index : nat)
| change_textarea (v : jsstring)
| keypress_textarea (key : jsstring) (shiftKey : bool)
| click_send
| process_prompt_settles (o : Settled)
| prompt_history_settles (o : Settled).

Record Config : Type := mkConfig {
  ui : State;
  outstanding : nat;
  trace : list Effect
}.

Definition is_process_prompt (e : Effect) : bool :=
  match e with
  | axios_post url _ _ => bool_decide (url = str "http://localhost:8000/process_prompt")
  | _ => false
  end.

Definition after (cfg : Config) (r : State * list Effect) : Config :=
  {| ui := fst r;
     outstanding := outstanding cfg + length (List.filter is_process_prompt (snd r));
     trace := trace cfg ++ snd r |}.

Definition mount (token : option jsstring) (email : jsstring) (now : N) : Config :=
  {| ui := initial email now;
     outstanding := 0;
     trace := fetchPromptHistory token |}.

Definition step (token : option jsstring) (ev : Event) (cfg : Config)
  : option Config :=
  let st := ui cfg in
  match ev with
  | click_tab tab => Some (after cfg (setActiveTab tab st, []))
  | change_date v => Some (after cfg (changeDate v st, []))
  | change_slot index v => Some (after cfg (updateSlot index v st, []))
  | click_remove index =>
      if remove_rendered index st
      then Some (after cfg (removeSlotField index st, []))
      else Some cfg
  | click_add_slot => Some (after cfg (addSlotField st, []))
  | click_submit => Some (after cfg (addAppointmentSlots token st))
  | appointments_settles o => Some (after cfg (addAppointmentSlots_settled o st))
  | click_quick_action index =>
      match quickStatsQueries !! index with
      | Some action => Some (after cfg (handleQuickAction action st, []))
      | None => Some cfg
      end
  | change_textarea v => Some (after cfg (setChatMessage v st, []))
  | keypress_textarea key shiftKey =>
      Some (after cfg (handleKeyPress token key shiftKey st))
  | click_send =>
      if send_disabled st then Some cfg
      else Some (after cfg (sendMessage token st))
  | process_prompt_settles o =>
      match outstanding cfg with
      | O => Some cfg
      | S n =>
          match sendMessage_settled token o st with
          | Rendered st' out =>
              Some {| ui := st'; outstanding := n; trace := trace cfg ++ out |}
          | Unmounted _ => None
          end
      end
  | prompt_history_settles o =>
      Some (after cfg (fetchPromptHistory_settled o st))
  end.

Fixpoint run (token : option jsstring) (evs : list Event) (cfg : Config)
  : option Config :=
  match evs with
  | [] => Some cfg
  | ev :: evs' =>
      match step token ev cfg with
      | Some cfg' => run token evs' cfg'
      | None => None
      end
  end.

End DoctorDashboard.

(** ** The specification's wording, where it is compared with the code *)

Module Spec.

Import DoctorDashboard.

(** "non-blank after trimming" *)
Definition non_blank (slot : jsstring) : bool :=
  match trim slot with [] => false | _ :: _ => true end.

(** "a request mapping the single date to the sequence of non-blank,
    trimmed slot strings" *)
Definition trimmed_slots_body (draft : SlotDraft) : value :=
  object [ (str "slots",
            object [ (date draft,
                      array (List.map text
                               (List.map trim (List.filter non_blank (slots draft))))) ]) ].

(** The same request with the slot strings kept as they were typed. *)
Definition typed_slots_body (draft : SlotDraft) : value :=
  object [ (str "slots",
            object [ (date draft,
                      array (List.map text (List.filter non_blank (slots draft)))) ]) ].

(** "a date is set AND at least one slot, after trimming, is non-blank" *)
Definition valid (draft : SlotDraft) : Prop :=
  date draft <> str "" /\ Exists (fun slot => trim slot <> str "") (slots draft).

(** The [detail] field is there, whatever it holds. *)
Definition detail_present (err : AxiosError) : Prop :=
  error_detail err <> undefined.

(** The request [{ text, session_id }] of the chat engine. *)
Definition chat_request (token : option jsstring) (input sid : jsstring) : Effect :=
  axios_post (str "http://localhost:8000/process_prompt")
             (object [ (str "text", text input); (str "session_id", text sid) ])
             (object [ (str "headers",
                        object [ (str "Authorization",
                                  text (str "Bearer " ++ item_toString token));
                                 (str "Content-Type", text (str "application/json")) ]) ]).

(** The [prompt_history] fetch of the History Synchronizer. *)
Definition history_request (token : option jsstring) : Effect :=
  axios_get (str "http://localhost:8000/prompt_history")
            (object [ (str "headers",
                       object [ (str "Authorization",
                                 text (str "Bearer " ++ item_toString token));
                                (str "Content-Type", text (str "application/json")) ]) ]).

(** {input buffer, transcript, in-flight flag}: what the chat engine of
    either controller owns. *)
Record ChatView : Type := mkView {
  input : jsstring;
  transcript : list Turn;
  in_flight : bool
}.

Definition patient_view (st : PatientDashboard.State) : ChatView :=
  {| input := PatientDashboard.chatMessage st;
     transcript := PatientDashboard.chatHistory st;
     in_flight := PatientDashboard.loading st |}.

Definition doctor_view (st : DoctorDashboard.State) : ChatView :=
  {| input := chatMessage st;
     transcript := chatHistory st;
     in_flight := loading st |}.

(** Two results of a settlement that agree on the chat view and on the
    effects. *)
Definition same_result (p : Result PatientDashboard.State)
           (d : Result DoctorDashboard.State) : Prop :=
  match p, d with
  | Rendered ps pout, Rendered ds dout => patient_view ps = doctor_view ds /\ pout = dout
  | Unmounted pout, Unmounted dout => pout = dout
  | _, _ => False
  end.

End Spec.

Module P := PatientDashboard.
Module D := DoctorDashboard.

(** ** App.js *)

Module App.

(** The [useState] cells of [App]: [user] is [null] or whatever user data was
    handed in; [loading] shows the loading screen. *)
Record State : Type := mkState { user : value; loading : bool }.

(** The component together with [localStorage]'s [token] item ([None]: no
    such item, [getItem] returns [null]). *)
Record Browser : Type := mkBrowser { app : State; token : option jsstring }.

Inductive AppEffect : Type :=
| fetch (url : jsstring) (init : value)
| console_error_user_info.

(** What [await fetch(...)] yields: a response with its [ok] flag, or a
    thrown network error. *)
Inductive FetchSettled : Type :=
| fetch_fulfilled (ok : bool)
| fetch_rejected.

(** What [await response.json()] yields. *)
Inductive JsonSettled : Type :=
| json_fulfilled (userData : value)
| json_rejected.

(** Where [fetchUserInfo] is suspended, if it is running. *)
Inductive Awaiting : Type := nothing | the_fetch | the_json.

Definition setUser (v : value) (b : Browser) : Browser :=
  mkBrowser (mkState v (loading (app b))) (token b).

Definition setLoading (v : bool) (b : Browser) : Browser :=
  mkBrowser (mkState (user (app b)) v) (token b).

Definition localStorage_setItem (v : jsstring) (b : Browser) : Browser :=
  mkBrowser (app b) (Some v).

Definition localStorage_removeItem (b : Browser) : Browser :=
  mkBrowser (app b) None.

(** [if (token)] on what [getItem] returned. *)
Definition token_truthy (t : option jsstring) : bool :=
  match t with
  | Some (_ :: _) => true
  | Some [] | None => false
  end.

(** [fetchUserInfo(token)], up to [await fetch]. *)
Definition fetchUserInfo (tok : jsstring) : list AppEffect :=
  [ fetch (str "http://localhost:8000/users/me")
          (object [ (str "headers",
                     object [ (str "Authorization", text (str "Bearer " ++ tok)) ]) ]) ].

(** [fetchUserInfo], from [await fetch] to [await response.json()] or to
    its end. *)
Definition fetchUserInfo_fetched (o : FetchSettled) (b : Browser)
  : Browser * list AppEffect * Awaiting :=
  match o with
  | fetch_fulfilled true => (b, [], the_json)
  | fetch_fulfilled false =>
      (setLoading false (localStorage_removeItem b), [], nothing)
  | fetch_rejected =>
      (setLoading false (localStorage_removeItem b), [ console_error_user_info ], nothing)
  end.

(** [fetchUserInfo], from [await response.json()] on. *)
Definition fetchUserInfo_parsed (o : JsonSettled) (b : Browser)
  : Browser * list AppEffect :=
  match o with
  | json_fulfilled userData => (setLoading false (setUser userData b), [])
  | json_rejected =>
      (setLoading false (localStorage_removeItem b), [ console_error_user_info ])
  end.

Definition handleLogin (userData : value) (tok : jsstring) (b : Browser) : Browser :=
  setUser userData (localStorage_setItem tok b).

Definition handleLogout (b : Browser) : Browser :=
  setUser null (localStorage_removeItem b).

(** The routes of [App], by the [Route] that matched. *)
Inductive Route : Type := route_login | route_dashboard | route_root.

Inductive Element : Type :=
| LoadingScreen
| Login
| Navigate (to : Route)
| DoctorDashboard (user : value)
| PatientDashboard (user : value)
| RenderThrows.

(** [user.role === 'doctor'] *)
Definition is_doctor (role : value) : bool :=
  match role with
  | text s => bool_decide (s = str "doctor")
  | _ => false
  end.

(** What [App] returns for the matched route. *)
Definition render (st : State) (route : Route) : Element :=
  if loading st then LoadingScreen
  else
    match route with
    | route_login =>
        if negb (truthy (user st)) then Login else Navigate route_dashboard
    | route_dashboard =>
        if truthy (user st) then
          match get (user st) (str "role") with
          | Some role =>
              if is_doctor role then DoctorDashboard (user st)
              else PatientDashboard (user st)
          | None => RenderThrows
          end
        else Navigate route_login
    | route_root =>
        Navigate (if truthy (user st) then route_dashboard else route_login)
    end.

(** Follow at most [hops] redirects. *)
Fixpoint settle (hops : nat) (st : State) (route : Route) : Element :=
  match render st route, hops with
  | Navigate to, S hops' => settle hops' st to
  | element, _ => element
  end.

Inductive Event : Type :=
| user_info_fetched (o : FetchSettled)
| user_info_parsed (o : JsonSettled)
| login (userData : value) (tok : jsstring)
| logout.

Record Config : Type := mkConfig {
  browser : Browser;
  awaiting : Awaiting;
  trace : list AppEffect
}.

(** The initial cells and the mount effect: fetch the user when a token is
    stored, otherwise leave the loading screen at once. *)
Definition mount (stored : option jsstring) : Config :=
  let b := mkBrowser (mkState null true) stored in
  match stored with
  | Some tok =>
      if token_truthy stored
      then mkConfig b the_fetch (fetchUserInfo tok)
      else mkConfig (setLoading false b) nothing []
  | None => mkConfig (setLoading false b) nothing []
  end.

(** One event; a settlement that is not awaited cannot happen and changes
    nothing. *)
Definition step (ev : Event) (cfg : Config) : Config :=
  match ev, awaiting cfg with
  | user_info_fetched o, the_fetch =>
      let '(b, out, aw) := fetchUserInfo_fetched o (browser cfg) in
      mkConfig b aw (trace cfg ++ out)
  | user_info_parsed o, the_json =>
      let '(b, out) := fetchUserInfo_parsed o (browser cfg) in
      mkConfig b nothing (trace cfg ++ out)
  | login userData tok, aw =>
      mkConfig (handleLogin userData tok (browser cfg)) aw (trace cfg)
  | logout, aw =>
      mkConfig (handleLogout (browser cfg)) aw (trace cfg)
  | _, _ => cfg
  end.

Definition run (evs : list Event) (cfg : Config) : Config :=
  fold_left (fun c ev => step ev c) evs cfg.

End App.

(** ** Observations on transcripts and traces *)

Module Observe.

Definition is_type (t : TurnType) (turn : Turn) : bool :=
  match type turn, t with
  | user, user | assistant, assistant | error, error => true
  | _, _ => false
  end.

(** Number of turns of kind [t] in a transcript. *)
Definition count_type (t : TurnType) (h : list Turn) : nat :=
  length (List.filter (is_type t) h).


Definition is_keypress (ev : PatientDashboard.Event) : bool :=
  match ev with
  | PatientDashboard.keypress_textarea _ _ => true
  | _ => false
  end.

(** The body of the last fulfilled history fetch among the events, [h] if
    there is none. *)
Fixpoint last_fetched (evs : list PatientDashboard.Event) (h : value) : value :=
  match evs with
  | [] => h
  | PatientDashboard.prompt_history_settles (Fulfilled r) :: evs' =>
      last_fetched evs' (data r)
  | _ :: evs' => last_fetched evs' h
  end.

(** What the patient dashboard may do to its surroundings. *)
Definition patient_effect (token : option jsstring) (sid : jsstring) (e : Effect) : Prop :=
  e = preventDefault
  \/ e = Spec.history_request token
  \/ (exists err, e = console_error (str "Error fetching history:") err)
  \/ (exists input, trim input <> str "" /\ e = Spec.chat_request token input sid).

(** The three kinds of move of the patient dashboard's chat engine, as
    relations between the configuration before and after. *)
Inductive patient_move (token : option jsstring) (cfg cfg' : PatientDashboard.Config)
  : Prop :=
| move_idle (out : list Effect) :
    PatientDashboard.chatHistory (PatientDashboard.ui cfg')
      = PatientDashboard.chatHistory (PatientDashboard.ui cfg) ->
    PatientDashboard.loading (PatientDashboard.ui cfg')
      = PatientDashboard.loading (PatientDashboard.ui cfg) ->
    PatientDashboard.sessionId (PatientDashboard.ui cfg')
      = PatientDashboard.sessionId (PatientDashboard.ui cfg) ->
    PatientDashboard.outstanding cfg' = PatientDashboard.outstanding cfg ->
    PatientDashboard.trace cfg' = PatientDashboard.trace cfg ++ out ->
    Forall (fun e => e = preventDefault
                     \/ exists err, e = console_error (str "Error fetching history:") err)
           out ->
    patient_move token cfg cfg'
| move_send (pre : list Effect) :
    trim (PatientDashboard.chatMessage (PatientDashboard.ui cfg)) <> str "" ->
    PatientDashboard.chatHistory (PatientDashboard.ui cfg')
      = PatientDashboard.chatHistory (PatientDashboard.ui cfg)
        ++ [ {| type := user;
                message := text (PatientDashboard.chatMessage (PatientDashboard.ui cfg)) |} ] ->
    PatientDashboard.loading (PatientDashboard.ui cfg') = true ->
    PatientDashboard.sessionId (PatientDashboard.ui cfg')
      = PatientDashboard.sessionId (PatientDashboard.ui cfg) ->
    PatientDashboard.outstanding cfg' = S (PatientDashboard.outstanding cfg) ->
    PatientDashboard.trace cfg'
      = PatientDashboard.trace cfg
        ++ pre ++ [ Spec.chat_request token
                      (PatientDashboard.chatMessage (PatientDashboard.ui cfg))
                      (PatientDashboard.sessionId (PatientDashboard.ui cfg)) ] ->
    Forall (fun e => e = preventDefault) pre ->
    patient_move token cfg cfg'
| move_reply (turn : Turn) (out : list Effect) :
    PatientDashboard.outstanding cfg = S (PatientDashboard.outstanding cfg') ->
    PatientDashboard.chatHistory (PatientDashboard.ui cfg')
      = PatientDashboard.chatHistory (PatientDashboard.ui cfg) ++ [ turn ] ->
    PatientDashboard.loading (PatientDashboard.ui cfg') = false ->
    PatientDashboard.sessionId (PatientDashboard.ui cfg')
      = PatientDashboard.sessionId (PatientDashboard.ui cfg) ->
    PatientDashboard.trace cfg' = PatientDashboard.trace cfg ++ out ->
    (type turn = assistant /\ out = [ Spec.history_request token ])
    \/ (type turn = error /\ truthy (message turn) = true /\ out = []) ->
    patient_move token cfg cfg'.

(** The events of the doctor dashboard that belong to the slot form. *)
Definition is_slot_event (ev : DoctorDashboard.Event) : bool :=
  match ev with
  | DoctorDashboard.change_date _
  | DoctorDashboard.change_slot _ _
  | DoctorDashboard.click_remove _
  | DoctorDashboard.click_add_slot
  | DoctorDashboard.click_submit
  | DoctorDashboard.appointments_settles _ => true
  | _ => false
  end.

End Observe.

(** * Properties *)

(** ** [trim] and the array methods *)

Section JsFacts.

Example trim_strips_both_ends :
  trim (str "  2PM-3PM " ++ [0x0009; 0x00A0; 0x000A]%N) = str "2PM-3PM".
Proof. reflexivity. Qed.

Example trim_keeps_inner_blanks : trim (str " 9 AM ") = str "9 AM".
Proof. reflexivity. Qed.

Example sessionId_at_mount :
  P.sessionId (P.initial (str "p@x.y") 1724457600000) = str "patient_p@x.y_1724457600000".
Proof. reflexivity. Qed.

Lemma trimStart_nil_iff (s : jsstring) :
  trimStart s = [] <-> forallb isWhiteSpace s = true.
Proof.
  induction s as [|c s IH]; simpl; [tauto|].
  destruct (isWhiteSpace c); simpl; [exact IH|].
  split; intros H; discriminate H.
Qed.

Lemma trimStart_head (s : jsstring) c t :
  trimStart s = c :: t -> isWhiteSpace c = false.
Proof.
  induction s as [|a s IH]; simpl; [discriminate|].
  destruct (isWhiteSpace a) eqn:Ha; [exact IH|].
  intros [= <- _]. exact Ha.
Qed.

Lemma forallb_rev {A} (p : A -> bool) (l : list A) :
  forallb p (rev l) = forallb p l.
Proof.
  induction l as [|x l IH]; simpl; [reflexivity|].
  rewrite forallb_app, IH. simpl. rewrite andb_true_r. apply andb_comm.
Qed.

(** A string trims to the empty string exactly when it consists of white
    space only. *)
Lemma trim_nil_iff (s : jsstring) :
  trim s = [] <-> forallb isWhiteSpace s = true.
Proof.
  unfold trim, trimEnd. rewrite <- trimStart_nil_iff.
  split; intros H.
  - apply (f_equal (@rev N)) in H. rewrite rev_involutive in H. simpl in H.
    apply trimStart_nil_iff in H. rewrite forallb_rev in H.
    destruct (trimStart s) as [|c t] eqn:E; [reflexivity|].
    apply trimStart_head in E. simpl in H. rewrite E in H. discriminate H.
  - rewrite H. reflexivity.
Qed.

Lemma truthy_trim (s : jsstring) :
  truthy (text (trim s)) = Spec.non_blank s.
Proof. reflexivity. Qed.

Lemma non_blank_false_iff (s : jsstring) :
  Spec.non_blank s = false <-> trim s = [].
Proof.
  unfold Spec.non_blank. destruct (trim s); split; intros H;
    try reflexivity; discriminate H.
Qed.

(** A callback that ignores the index is an ordinary filter. *)
Lemma filter_from_const {A} (p : A -> bool) (l : list A) i :
  filter_from i (fun x _ => p x) l = List.filter p l.
Proof.
  revert i. induction l as [|x l IH]; intros i; simpl; [reflexivity|].
  rewrite IH. reflexivity.
Qed.

(** [filter((_, i) => i !== index)] deletes position [index]. *)
Lemma filter_from_delete {A} (l : list A) i index :
  filter_from i (fun _ j => negb (j =? index)) l =
  if index <? i then l else delete (index - i) l.
Proof.
  revert i. induction l as [|x l IH]; intros i; simpl.
  - destruct (index <? i); reflexivity.
  - rewrite IH. destruct (Nat.eqb_spec i index) as [->|Hne]; simpl.
    + rewrite Nat.sub_diag.
      destruct (Nat.ltb_spec index index); [lia|].
      destruct (Nat.ltb_spec index (S index)); [reflexivity|lia].
    + destruct (Nat.ltb_spec index i), (Nat.ltb_spec index (S i));
        try lia; try reflexivity.
      replace (index - i) with (S (index - S i)) by lia. reflexivity.
Qed.

Lemma Array_filter_delete {A} (l : list A) index :
  Array_filter (fun _ j => negb (j =? index)) l = delete index l.
Proof.
  unfold Array_filter. rewrite filter_from_delete. simpl.
  rewrite Nat.sub_0_r. reflexivity.
Qed.

Lemma length_map_from {A B} (f : A -> nat -> B) (l : list A) i :
  length (map_from i f l) = length l.
Proof.
  revert i. induction l as [|x l IH]; intros i; simpl; [reflexivity|].
  rewrite IH. reflexivity.
Qed.

(** [map((slot, i) => i === index ? value : slot)] overwrites position
    [index], and does nothing when there is no such position. *)
Lemma map_from_insert {A} (l : list A) (v : A) i index :
  map_from i (fun x j => if j =? index then v else x) l =
  if index <? i then l else <[index - i := v]> l.
Proof.
  revert i. induction l as [|x l IH]; intros i; simpl.
  - destruct (index <? i); reflexivity.
  - rewrite IH. destruct (Nat.eqb_spec i index) as [->|Hne]; simpl.
    + rewrite Nat.sub_diag.
      destruct (Nat.ltb_spec index index); [lia|].
      destruct (Nat.ltb_spec index (S index)); [reflexivity|lia].
    + destruct (Nat.ltb_spec index i), (Nat.ltb_spec index (S i));
        try lia; try reflexivity.
      replace (index - i) with (S (index - S i)) by lia. reflexivity.
Qed.

Lemma Array_map_insert {A} (l : list A) (v : A) index :
  Array_map (fun x j => if j =? index then v else x) l = <[index := v]> l.
Proof.
  unfold Array_map. rewrite map_from_insert. simpl.
  rewrite Nat.sub_0_r. reflexivity.
Qed.

End JsFacts.


(** ** Chat engine: rejected input *)

Lemma patient_sendMessage_blank (token : option jsstring) (st : P.State) :
  trim (P.chatMessage st) = str "" -> P.sendMessage token st = (st, []).
Proof. intros Hblank. unfold P.sendMessage. rewrite Hblank. reflexivity. Qed.

Lemma doctor_sendMessage_blank (token : option jsstring) (st : D.State) :
  trim (D.chatMessage st) = str "" -> D.sendMessage token st = (st, []).
Proof. intros Hblank. unfold D.sendMessage. rewrite Hblank. reflexivity. Qed.

(** C9. When the text in the input buffer trims to the empty string,
    [sendMessage] of either dashboard returns the state it was given,
    untouched (input buffer, in-flight flag and transcript included), and
    performs no effect at all, hence appends no turn and dispatches no
    request. *)
Theorem sendMessage_blank_noop (token : option jsstring) (input : jsstring) :
  trim input = str "" ->
  (forall st : P.State, P.chatMessage st = input -> P.sendMessage token st = (st, []))
  /\ (forall st : D.State, D.chatMessage st = input -> D.sendMessage token st = (st, [])).
Proof.
  intros Hblank. split; intros st <-.
  - apply patient_sendMessage_blank, Hblank.
  - apply doctor_sendMessage_blank, Hblank.
Qed.

Lemma sendMessage_blank_noop_witness :
  trim (str "  ") = str ""
  /\ P.sendMessage None (P.setChatMessage (str "  ") (P.initial (str "a@b.c") 7))
     = (P.setChatMessage (str "  ") (P.initial (str "a@b.c") 7), [])
  /\ D.sendMessage None (D.setChatMessage (str "  ") (D.initial (str "a@b.c") 7))
     = (D.setChatMessage (str "  ") (D.initial (str "a@b.c") 7), []).
Proof.
  split; [reflexivity|]. split.
  - apply (proj1 (sendMessage_blank_noop None (str "  ") eq_refl)). reflexivity.
  - apply (proj2 (sendMessage_blank_noop None (str "  ") eq_refl)). reflexivity.
Defined.

(** The keyboard path reaches the same early return: the state stays as it
    was and no request leaves. *)
Lemma handleKeyPress_blank (token : option jsstring) key shiftKey (st : P.State) :
  trim (P.chatMessage st) = str "" ->
  fst (P.handleKeyPress token key shiftKey st) = st
  /\ requests (snd (P.handleKeyPress token key shiftKey st)) = [].
Proof.
  intros Hblank. unfold P.handleKeyPress.
  destruct (bool_decide (key = str "Enter") && negb shiftKey); [|split; reflexivity].
  rewrite (patient_sendMessage_blank token st Hblank).
  split; reflexivity.
Qed.

(** ** History synchronizer *)

(** C7. A refresh whose fetch fails returns the state unchanged, in both
    dashboards: the cached collection and every other cell are the ones it
    was given, and its only effect is one [console.error] (no alert, no chat
    turn, no request). A refresh whose fetch succeeds stores the body it
    received as the whole collection and touches nothing else. *)
Theorem fetchPromptHistory_failure_keeps_cache
        (err : AxiosError) (r : Response) (ps : P.State) (ds : D.State) :
  P.fetchPromptHistory_settled (Rejected err) ps
    = (ps, [ console_error (str "Error fetching history:") err ])
  /\ D.fetchPromptHistory_settled (Rejected err) ds
    = (ds, [ console_error (str "Error fetching history:") err ])
  /\ P.fetchPromptHistory_settled (Fulfilled r) ps
    = (P.mkState (P.activeTab ps) (P.chatMessage ps) (P.chatHistory ps) (P.loading ps)
                 (P.appointments ps) (data r) (P.sessionId ps), [])
  /\ D.fetchPromptHistory_settled (Fulfilled r) ds
    = (D.mkState (D.activeTab ds) (D.chatMessage ds) (D.chatHistory ds) (D.loading ds)
                 (data r) (D.newSlot ds) (D.sessionId ds), []).
Proof. repeat split. Qed.

(** Seen from the event loop: the settlement of a failed fetch leaves the
    rendered state as it was. *)
Lemma step_history_failure (token : option jsstring) err (cfg : P.Config) :
  exists cfg', P.step token (P.prompt_history_settles (Rejected err)) cfg = Some cfg'
               /\ P.ui cfg' = P.ui cfg
               /\ P.outstanding cfg' = P.outstanding cfg.
Proof.
  eexists. split; [reflexivity|]. split; [reflexivity|].
  unfold P.after, P.count_posts. simpl. lia.
Qed.

(** ** Slot draft: submission *)

Lemma every_blank_iff (l : list jsstring) :
  Array_every (fun slot => negb (truthy (text (trim slot)))) l = true
  <-> Forall (fun slot => trim slot = str "") l.
Proof.
  unfold Array_every. rewrite forallb_forall, List.Forall_forall.
  split; intros H slot Hin; specialize (H slot Hin).
  - apply non_blank_false_iff. rewrite <- truthy_trim.
    destruct (truthy (text (trim slot))); [discriminate H|reflexivity].
  - change (str "") with (@nil N) in H. rewrite H. reflexivity.
Qed.

(** C8. If the draft has no date, or every slot trims to the empty string,
    [addAppointmentSlots] returns the state unchanged (so the draft keeps
    its date and slots) and its only effect is the alert asking for the
    missing data: no request is issued. *)
Theorem addAppointmentSlots_invalid_noop (token : option jsstring) (st : D.State) :
  D.date (D.newSlot st) = str ""
  \/ Forall (fun slot => trim slot = str "") (D.slots (D.newSlot st)) ->
  D.addAppointmentSlots token st
    = (st, [ alert (text (str "Please provide date and at least one time slot")) ])
  /\ requests (snd (D.addAppointmentSlots token st)) = [].
Proof.
  intros H.
  assert (E : D.addAppointmentSlots token st
              = (st, [ alert (text (str "Please provide date and at least one time slot")) ])).
  { unfold D.addAppointmentSlots. destruct H as [H|H].
    - rewrite H. reflexivity.
    - apply every_blank_iff in H. rewrite H, orb_true_r. reflexivity. }
  rewrite E. split; reflexivity.
Qed.

Lemma addAppointmentSlots_invalid_noop_witness :
  let st := D.updateSlot 0 (str "9AM-10AM") (D.initial (str "dr@x.y") 1) in
  D.date (D.newSlot st) = str ""
  /\ D.addAppointmentSlots None st
     = (st, [ alert (text (str "Please provide date and at least one time slot")) ])
  /\ requests (snd (D.addAppointmentSlots None st)) = [].
Proof.
  split; [reflexivity|].
  apply (addAppointmentSlots_invalid_noop None
           (D.updateSlot 0 (str "9AM-10AM") (D.initial (str "dr@x.y") 1))).
  left. reflexivity.
Defined.

(** C6. When the server accepts the dispatched request, the draft becomes
    [{date: "", slots: [""]}] (whatever it was), nothing else in the state
    changes, and the success alert is shown. When the server rejects it,
    the state is returned unchanged and exactly one alert is shown: for an
    error body that is an object, the value of its [detail] field if that
    is truthy (the server's message), and the text "Error adding slots" if
    it is missing or falsy; the same generic text when there is no response
    or the body is not an object. *)
Theorem addAppointmentSlots_settled_outcomes
        (r : Response) (st : D.State) (fields : list (jsstring * value)) (detail : value) :
  lookup_field (str "detail") fields = detail ->
  let fallback := text (str "Error adding slots") in
  let rejected_with (body : value) := Rejected (mkError (Some (mkResponse body))) in
  (let '(st', out) := D.addAppointmentSlots_settled (Fulfilled r) st in
   D.newSlot st' = {| D.date := str ""; D.slots := [ str "" ] |}
   /\ st' = D.setNewSlot (fun _ => D.newSlot st') st
   /\ In (alert (text (str "Appointment slots added successfully!"))) out
   /\ requests out = [])
  /\ (forall err, exists shown,
        D.addAppointmentSlots_settled (Rejected err) st = (st, [ alert shown ]))
  /\ (truthy detail = true ->
      D.addAppointmentSlots_settled (rejected_with (object fields)) st
      = (st, [ alert detail ]))
  /\ (truthy detail = false ->
      D.addAppointmentSlots_settled (rejected_with (object fields)) st
      = (st, [ alert fallback ]))
  /\ D.addAppointmentSlots_settled (Rejected (mkError None)) st = (st, [ alert fallback ])
  /\ (forall body, (forall fs, body <> object fs) ->
      D.addAppointmentSlots_settled (rejected_with body) st = (st, [ alert fallback ])).
Proof.
  intros Hdetail fallback rejected_with.
  split; [|split; [|split; [|split; [|split]]]].
  - simpl. repeat split. right. left. reflexivity.
  - intros err. eexists. reflexivity.
  - intros Htruthy. simpl. unfold or_else, error_detail. simpl.
    rewrite Hdetail, Htruthy. reflexivity.
  - intros Hfalsy. simpl. unfold or_else, error_detail. simpl.
    rewrite Hdetail, Hfalsy. reflexivity.
  - reflexivity.
  - intros body Hbody. destruct body; try reflexivity.
    contradiction (Hbody fields0). reflexivity.
Qed.

Lemma addAppointmentSlots_settled_outcomes_witness :
  let st := D.updateSlot 0 (str "9AM-10AM")
              (D.changeDate (str "2025-08-24") (D.initial (str "dr@x.y") 1)) in
  let body := object [ (str "status", number 409);
                       (str "detail", text (str "Slot already exists")) ] in
  D.addAppointmentSlots_settled (Rejected (mkError (Some (mkResponse body)))) st
  = (st, [ alert (text (str "Slot already exists")) ])
  /\ D.newSlot st = {| D.date := str "2025-08-24"; D.slots := [ str "9AM-10AM" ] |}.
Proof.
  intros st body. split; [|reflexivity].
  exact (proj1 (proj2 (proj2
           (addAppointmentSlots_settled_outcomes (mkResponse null) st
              [ (str "status", number 409);
                (str "detail", text (str "Slot already exists")) ]
              (text (str "Slot already exists")) eq_refl))) eq_refl).
Defined.

Lemma valid_passes (draft : D.SlotDraft) :
  Spec.valid draft ->
  negb (truthy (text (D.date draft)))
  || Array_every (fun slot => negb (truthy (text (trim slot)))) (D.slots draft) = false.
Proof.
  intros [Hdate Hslot]. apply orb_false_intro.
  - destruct (D.date draft); [contradiction Hdate; reflexivity|reflexivity].
  - destruct (Array_every _ _) eqn:E; [|reflexivity].
    apply every_blank_iff in E. rewrite List.Forall_forall in E.
    apply List.Exists_exists in Hslot as (slot & Hin & Hne).
    contradiction Hne. apply E, Hin.
Qed.

Lemma map_text_inj (l1 l2 : list jsstring) :
  List.map text l1 = List.map text l2 -> l1 = l2.
Proof.
  revert l2. induction l1 as [|x l1 IH]; intros [|y l2] H; simpl in H;
    try discriminate H; [reflexivity|].
  injection H as -> H. rewrite (IH l2 H). reflexivity.
Qed.

Lemma map_trim_fixed (l : list jsstring) :
  List.map trim l = l <-> Forall (fun slot => trim slot = slot) l.
Proof.
  induction l as [|slot l IH]; simpl.
  - split; [constructor|reflexivity].
  - split.
    + intros H. injection H as Hslot H. constructor; [exact Hslot|apply IH, H].
    + intros H. inversion H as [|? ? Hslot Hrest]. subst.
      rewrite Hslot, (proj2 IH Hrest). reflexivity.
Qed.

(** C2, as the code has it. For a draft that passes validation,
    [addAppointmentSlots] leaves the state alone and dispatches exactly one
    request, to [appointments], whose body maps the draft's date to the
    slots that are non-blank after trimming, in their original order and as
    they were typed: the strings are selected by their trimmed form but are
    not themselves trimmed. This is the body with trimmed strings exactly
    when no selected slot carries leading or trailing white space. *)
Theorem addAppointmentSlots_request (token : option jsstring) (st : D.State) :
  Spec.valid (D.newSlot st) ->
  D.addAppointmentSlots token st
    = (st, [ axios_post (str "http://localhost:8000/appointments")
                        (Spec.typed_slots_body (D.newSlot st))
                        (object [ (str "headers", D.getAuthHeaders token) ]) ])
  /\ (Spec.typed_slots_body (D.newSlot st) = Spec.trimmed_slots_body (D.newSlot st)
      <-> Forall (fun slot => trim slot = slot)
                 (List.filter Spec.non_blank (D.slots (D.newSlot st)))).
Proof.
  intros Hvalid. split.
  - unfold D.addAppointmentSlots. rewrite (valid_passes _ Hvalid).
    unfold Array_filter, Spec.typed_slots_body.
    rewrite (filter_from_const (fun slot => truthy (text (trim slot)))).
    reflexivity.
  - unfold Spec.typed_slots_body, Spec.trimmed_slots_body.
    rewrite <- map_trim_fixed. split.
    + intros H. injection H as H. apply map_text_inj in H. symmetry. exact H.
    + intros ->. reflexivity.
Qed.

(** The specification's example, with a blank-only slot in the middle:
    date "2025-08-24", slots ["9AM-10AM", " ", "2PM-3PM"]. *)
Lemma addAppointmentSlots_request_witness :
  let st := D.updateSlot 2 (str "2PM-3PM")
              (D.updateSlot 1 (str " ")
                 (D.updateSlot 0 (str "9AM-10AM")
                    (D.addSlotField (D.addSlotField
                       (D.changeDate (str "2025-08-24") (D.initial (str "dr@x.y") 1)))))) in
  D.newSlot st = {| D.date := str "2025-08-24";
                    D.slots := [ str "9AM-10AM"; str " "; str "2PM-3PM" ] |}
  /\ D.addAppointmentSlots None st
     = (st, [ axios_post (str "http://localhost:8000/appointments")
                (object [ (str "slots",
                           object [ (str "2025-08-24",
                                     array [ text (str "9AM-10AM"); text (str "2PM-3PM") ]) ]) ])
                (object [ (str "headers", D.getAuthHeaders None) ]) ])
  /\ Spec.typed_slots_body (D.newSlot st) = Spec.trimmed_slots_body (D.newSlot st).
Proof.
  intros st.
  assert (Hvalid : Spec.valid (D.newSlot st)).
  { split; [simpl; discriminate|]. simpl. left. vm_compute. discriminate. }
  destruct (addAppointmentSlots_request None st Hvalid) as [Hsent Hsame].
  split; [reflexivity|]. split; [exact Hsent|].
  apply Hsame. vm_compute. repeat constructor.
Defined.

(** C2 as stated fails: a slot typed with surrounding blanks passes
    validation and is sent with them. *)
Lemma trimmed_form_not_sent :
  let st := D.updateSlot 0 (str " 9AM-10AM ")
              (D.changeDate (str "2025-08-24") (D.initial (str "dr@x.y") 1)) in
  Spec.valid (D.newSlot st)
  /\ snd (D.addAppointmentSlots None st)
     = [ axios_post (str "http://localhost:8000/appointments")
           (object [ (str "slots",
                      object [ (str "2025-08-24", array [ text (str " 9AM-10AM ") ]) ]) ])
           (object [ (str "headers", D.getAuthHeaders None) ]) ]
  /\ Spec.trimmed_slots_body (D.newSlot st)
     = object [ (str "slots",
                 object [ (str "2025-08-24", array [ text (str "9AM-10AM") ]) ]) ]
  /\ snd (D.addAppointmentSlots None st)
     <> [ axios_post (str "http://localhost:8000/appointments")
            (Spec.trimmed_slots_body (D.newSlot st))
            (object [ (str "headers", D.getAuthHeaders None) ]) ].
Proof.
  split; [|split; [|split]].
  - split; simpl; [discriminate|]. left. vm_compute. discriminate.
  - reflexivity.
  - reflexivity.
  - vm_compute. intros H. discriminate H.
Qed.

(** ** Slot draft: removal *)

Lemma removeSlotField_slots (index : nat) (st : D.State) :
  D.slots (D.newSlot (D.removeSlotField index st)) = delete index (D.slots (D.newSlot st)).
Proof. simpl. apply Array_filter_delete. Qed.

Lemma updateSlot_slots (index : nat) (v : jsstring) (st : D.State) :
  D.slots (D.newSlot (D.updateSlot index v st)) = <[index := v]> (D.slots (D.newSlot st)).
Proof. simpl. apply Array_map_insert. Qed.

Lemma remove_rendered_spec (index : nat) (st : D.State) :
  D.remove_rendered index st = true
  <-> index < length (D.slots (D.newSlot st)) /\ 1 < length (D.slots (D.newSlot st)).
Proof.
  unfold D.remove_rendered. rewrite andb_true_iff, !Nat.ltb_lt. reflexivity.
Qed.

Lemma nonempty_length {A} (l : list A) : l <> [] <-> 0 < length l.
Proof. destruct l; simpl; split; intros H; try congruence; lia. Qed.

(** No event the page can produce empties the slot sequence. *)
Lemma step_keeps_a_slot (token : option jsstring) (ev : D.Event) (cfg cfg' : D.Config) :
  D.slots (D.newSlot (D.ui cfg)) <> [] ->
  D.step token ev cfg = Some cfg' ->
  D.slots (D.newSlot (D.ui cfg')) <> [].
Proof.
  intros Hne Hstep. destruct ev; simpl in Hstep.
  - injection Hstep as <-. exact Hne.
  - injection Hstep as <-. exact Hne.
  - injection Hstep as <-. cbn [D.ui D.after fst].
    rewrite updateSlot_slots. apply nonempty_length. rewrite length_insert.
    apply nonempty_length, Hne.
  - destruct (D.remove_rendered index (D.ui cfg)) eqn:E; injection Hstep as <-;
      [|exact Hne].
    apply remove_rendered_spec in E as [Hlt Hmany]. cbn [D.ui D.after fst].
    rewrite removeSlotField_slots. apply nonempty_length.
    rewrite length_delete by (apply lookup_lt_is_Some_2, Hlt). lia.
  - injection Hstep as <-. cbn [D.ui D.after fst]. simpl.
    intros H. apply app_eq_nil in H as [_ H]. discriminate H.
  - injection Hstep as <-. cbn [D.ui D.after].
    unfold D.addAppointmentSlots. destruct (_ || _); exact Hne.
  - injection Hstep as <-. destruct o; simpl; [discriminate|exact Hne].
  - destruct (D.quickStatsQueries !! index); injection Hstep as <-; exact Hne.
  - injection Hstep as <-. exact Hne.
  - injection Hstep as <-. cbn [D.ui D.after].
    unfold D.handleKeyPress, D.sendMessage.
    destruct (_ && _); [|exact Hne]. destruct (negb _); exact Hne.
  - destruct (D.send_disabled (D.ui cfg)); injection Hstep as <-; [exact Hne|].
    cbn [D.ui D.after]. unfold D.sendMessage. destruct (negb _); exact Hne.
  - destruct (D.outstanding cfg); [injection Hstep as <-; exact Hne|].
    destruct (D.sendMessage_settled token o (D.ui cfg)) as [st' out|out] eqn:E;
      [|discriminate Hstep].
    injection Hstep as <-. cbn [D.ui].
    unfold D.sendMessage_settled in E. destruct o.
    + destruct (get _ _); [|discriminate E]. injection E as <- _. exact Hne.
    + injection E as <- _. exact Hne.
  - injection Hstep as <-. destruct o; exact Hne.
Qed.

Lemma run_keeps_a_slot (token : option jsstring) (evs : list D.Event) :
  forall cfg cfg' : D.Config,
    D.slots (D.newSlot (D.ui cfg)) <> [] ->
    D.run token evs cfg = Some cfg' ->
    D.slots (D.newSlot (D.ui cfg')) <> [].
Proof.
  induction evs as [|ev evs IH]; intros cfg cfg' Hne Hrun; simpl in Hrun.
  - injection Hrun as <-. exact Hne.
  - destruct (D.step token ev cfg) as [cfg1|] eqn:E; [|discriminate Hrun].
    apply (IH cfg1 cfg'); [|exact Hrun].
    apply (step_keeps_a_slot token ev cfg cfg1 Hne E).
Qed.

(** C3. The only caller of [removeSlotField] is the Remove button, which
    the view renders only while the draft has more than one slot. So in
    every state the mounted dashboard can reach: the slot sequence is
    non-empty; while it has exactly one element no Remove button exists,
    [removeSlotField] cannot be invoked and a click changes nothing, the
    sequence keeping its length; and where a button exists,
    [removeSlotField] shortens the sequence by exactly one element and
    leaves it non-empty. Removal never makes the sequence empty. *)
Theorem remove_button_keeps_a_slot
        (token : option jsstring) (email : jsstring) (now : N)
        (evs : list D.Event) (cfg : D.Config) :
  D.run token evs (D.mount token email now) = Some cfg ->
  D.slots (D.newSlot (D.ui cfg)) <> []
  /\ forall index : nat,
      (length (D.slots (D.newSlot (D.ui cfg))) = 1 ->
       D.remove_rendered index (D.ui cfg) = false
       /\ D.step token (D.click_remove index) cfg = Some cfg)
      /\ (D.remove_rendered index (D.ui cfg) = true ->
          D.slots (D.newSlot (D.removeSlotField index (D.ui cfg)))
            = delete index (D.slots (D.newSlot (D.ui cfg)))
          /\ length (D.slots (D.newSlot (D.removeSlotField index (D.ui cfg))))
             = length (D.slots (D.newSlot (D.ui cfg))) - 1
          /\ D.slots (D.newSlot (D.removeSlotField index (D.ui cfg))) <> []).
Proof.
  intros Hrun. split.
  - apply (run_keeps_a_slot token evs (D.mount token email now) cfg);
      [discriminate|exact Hrun].
  - intros index. split.
    + intros Hone.
      assert (E : D.remove_rendered index (D.ui cfg) = false).
      { unfold D.remove_rendered. rewrite Hone. apply andb_false_r. }
      split; [exact E|]. simpl. rewrite E. reflexivity.
    + intros Hshown. apply remove_rendered_spec in Hshown as [Hlt Hmany].
      rewrite removeSlotField_slots.
      assert (Hlen : length (delete index (D.slots (D.newSlot (D.ui cfg))))
                     = length (D.slots (D.newSlot (D.ui cfg))) - 1).
      { apply length_delete, lookup_lt_is_Some_2, Hlt. }
      split; [reflexivity|]. split; [exact Hlen|].
      apply nonempty_length. lia.
Qed.

Lemma remove_button_keeps_a_slot_witness :
  let evs := [ D.click_add_slot; D.change_slot 1 (str "2PM-3PM"); D.click_remove 0 ] in
  exists cfg,
    D.run None evs (D.mount None (str "dr@x.y") 1) = Some cfg
    /\ D.slots (D.newSlot (D.ui cfg)) = [ str "2PM-3PM" ]
    /\ D.slots (D.newSlot (D.ui cfg)) <> []
    /\ D.step None (D.click_remove 0) cfg = Some cfg.
Proof.
  eexists. split; [reflexivity|]. split; [reflexivity|].
  pose proof (remove_button_keeps_a_slot None (str "dr@x.y") 1
                [ D.click_add_slot; D.change_slot 1 (str "2PM-3PM"); D.click_remove 0 ]
                _ eq_refl) as [Hne Hidx].
  split; [exact Hne|].
  exact (proj2 (proj1 (Hidx 0) eq_refl)).
Defined.

(** ** Chat engine: the round-trip *)

Lemma sendMessage_non_blank (token : option jsstring) (st : P.State) :
  trim (P.chatMessage st) <> str "" ->
  P.sendMessage token st
  = (P.mkState (P.activeTab st) (str "")
               (P.chatHistory st ++ [ {| type := user; message := text (P.chatMessage st) |} ])
               true (P.appointments st) (P.history st) (P.sessionId st),
     [ Spec.chat_request token (P.chatMessage st) (P.sessionId st) ]).
Proof.
  intros Hne. unfold P.sendMessage.
  destruct (trim (P.chatMessage st)) eqn:E; [contradiction Hne; reflexivity|].
  reflexivity.
Qed.

Lemma perform_sendMessage_settled (token : option jsstring) (o : Settled) (st : P.State) :
  P.perform token (P.sendMessage_settled_calls o) (Some st) []
  = P.sendMessage_settled token o st.
Proof.
  destruct o as [r|err]; simpl; [|reflexivity].
  destruct (get (data r) (str "response")); reflexivity.
Qed.

Lemma transcript_renders_snoc (h : list Turn) (turn : Turn) :
  transcript_renders (h ++ [ turn ]) = transcript_renders h && renderable (message turn).
Proof.
  unfold transcript_renders. rewrite forallb_app. simpl. rewrite andb_true_r. reflexivity.
Qed.

(** Appending a turn that can be shown, and changing the flag, keeps a page
    that rendered rendering. *)
Lemma renders_after_turn (st : P.State) (turn : Turn) (flag : bool) :
  P.renders st = true ->
  renderable (message turn) = true ->
  P.renders (P.setLoading flag (P.setChatHistory (fun prev => prev ++ [ turn ]) st)) = true.
Proof.
  unfold P.renders. cbn [P.setLoading P.setChatHistory P.activeTab P.chatHistory P.history].
  intros Hst Hturn. rewrite transcript_renders_snoc, Hturn, andb_true_r. exact Hst.
Qed.

(** C4, as the code has it. Take a page that is on screen and a failed
    round-trip whose error message can be shown (every message but an
    object or an array holding one). Then handling the failure throws
    nowhere and performs no effect: exactly one error turn is appended, the
    in-flight flag is cleared, nothing else changes, and the page renders.
    The message of the turn is the [detail] field of the error body when
    that value is truthy, and the generic text in every other case: no
    response, a body without a [detail], or a [detail] that is falsy (an
    empty string, [null], [false], 0). On every exit path of the
    continuation, success or failure, the last call made is
    [setLoading(false)]; and whenever the page renders afterwards, the flag
    it shows is cleared. *)
Theorem sendMessage_failure_turn (token : option jsstring) (err : AxiosError) (st : P.State) :
  let fallback := text (str "Error processing message") in
  let m := if truthy (error_detail err) then error_detail err else fallback in
  P.renders st = true ->
  renderable m = true ->
  P.sendMessage_then_render token (Rejected err) st
    = Rendered
        (P.mkState (P.activeTab st) (P.chatMessage st)
                   (P.chatHistory st ++ [ {| type := error; message := m |} ])
                   false (P.appointments st) (P.history st) (P.sessionId st))
        []
  /\ (forall fields,
        response err = Some (mkResponse (object fields)) ->
        error_detail err = lookup_field (str "detail") fields)
  /\ (response err = None -> m = fallback)
  /\ (~ Spec.detail_present err -> m = fallback)
  /\ (truthy (error_detail err) = true -> m = error_detail err)
  /\ (truthy (error_detail err) = false -> m = fallback)
  /\ (forall o, last (P.sendMessage_settled_calls o) = Some (P.call_setLoading false))
  /\ (forall o, P.perform token (P.sendMessage_settled_calls o) (Some st) []
                = P.sendMessage_settled token o st)
  /\ (forall o st' out,
        P.sendMessage_then_render token o st = Rendered st' out -> P.loading st' = false).
Proof.
  intros fallback m Hst Hm.
  split; [|split; [|split; [|split; [|split; [|split; [|split; [|split]]]]]]].
  - unfold P.sendMessage_then_render, P.sendMessage_settled.
    pose proof (renders_after_turn st {| type := error; message := m |} false Hst Hm) as Hr.
    unfold or_else. fold fallback. fold m.
    unfold P.setLoading, P.setChatHistory in *. simpl in *. rewrite Hr. reflexivity.
  - intros fields Hbody. unfold error_detail. rewrite Hbody. reflexivity.
  - intros Hnone. subst m. unfold error_detail. rewrite Hnone. reflexivity.
  - intros Habsent. subst m. unfold Spec.detail_present in Habsent.
    destruct (error_detail err); try reflexivity; contradiction Habsent; discriminate.
  - intros Htruthy. subst m. rewrite Htruthy. reflexivity.
  - intros Hfalsy. subst m. rewrite Hfalsy. reflexivity.
  - intros [r|e]; reflexivity.
  - intros o. apply perform_sendMessage_settled.
  - intros o st' out. unfold P.sendMessage_then_render, P.sendMessage_settled.
    destruct o as [r|e].
    + destruct (get (data r) (str "response")); [|discriminate].
      intros H.
      match type of H with (if ?c then _ else _) = _ => destruct c end;
        [|discriminate H].
      inversion H. reflexivity.
    + intros H.
      match type of H with (if ?c then _ else _) = _ => destruct c end;
        [|discriminate H].
      inversion H. reflexivity.
Qed.

Lemma sendMessage_failure_turn_witness :
  let err := mkError (Some (mkResponse
               (object [ (str "detail", text (str "Doctor not available")) ]))) in
  let st := P.setLoading true (P.initial (str "p@x.y") 5) in
  P.renders st = true
  /\ Spec.detail_present err
  /\ error_detail err = text (str "Doctor not available")
  /\ P.sendMessage_then_render None (Rejected err) st
     = Rendered
         (P.mkState (str "chat") (str "")
            [ {| type := error; message := text (str "Doctor not available") |} ]
            false (array []) (array []) (P.sessionId st))
         [].
Proof.
  split; [reflexivity|]. split; [vm_compute; discriminate|].
  pose proof (sendMessage_failure_turn None
                (mkError (Some (mkResponse
                   (object [ (str "detail", text (str "Doctor not available")) ]))))
                (P.setLoading true (P.initial (str "p@x.y") 5)) eq_refl eq_refl)
    as (Hturn & Hdetail & _).
  split; [exact (Hdetail _ eq_refl)|exact Hturn].
Defined.

(** C4 as stated fails: a [detail] that is present but empty is not the
    message of the error turn; the generic text is. *)
Lemma empty_detail_falls_back :
  let err := mkError (Some (mkResponse (object [ (str "detail", text (str "")) ]))) in
  let st := P.setLoading true (P.initial (str "p@x.y") 5) in
  P.renders st = true
  /\ Spec.detail_present err
  /\ error_detail err = text (str "")
  /\ exists st',
      P.sendMessage_then_render None (Rejected err) st = Rendered st' []
      /\ P.chatHistory st'
         = [ {| type := error; message := text (str "Error processing message") |} ]
      /\ P.chatHistory st' <> [ {| type := error; message := error_detail err |} ].
Proof.
  split; [reflexivity|]. split; [vm_compute; discriminate|]. split; [reflexivity|].
  eexists. split; [reflexivity|]. split; [reflexivity|].
  vm_compute. intros H. discriminate H.
Qed.

(** A [detail] that is an object (or a [null] body on success) is where the
    page does not survive: the chat pane cannot show the turn, or the
    updater cannot build it, the render throws and the tree is unmounted. *)
Lemma unshowable_reply_unmounts :
  let st := P.setLoading true (P.initial (str "p@x.y") 5) in
  let issue := object [ (str "msg", text (str "field required")) ] in
  P.sendMessage_then_render None
    (Rejected (mkError (Some (mkResponse (object [ (str "detail", array [ issue ]) ]))))) st
  = Unmounted []
  /\ P.sendMessage_then_render None
       (Fulfilled (mkResponse (object [ (str "response", issue) ]))) st
     = Unmounted (P.fetchPromptHistory None)
  /\ P.sendMessage_then_render None (Fulfilled (mkResponse null)) st
     = Unmounted (P.fetchPromptHistory None)
  /\ D.sendMessage_then_render None
       (Fulfilled (mkResponse (object [ (str "response", issue) ])))
       (D.setActiveTab (str "stats") (D.initial (str "dr@x.y") 1))
     = Unmounted (D.fetchPromptHistory None).
Proof. repeat split. Qed.

(** C5 does not hold of the code. The user turn of a send is followed at
    once by its reply only if nothing else is sent meanwhile, and the
    keyboard handler does send while a round-trip is outstanding (the
    defect of C1): after "a" and "b" are both sent with Enter and both
    replies arrive, the transcript has the two user turns first and the
    two assistant turns after them, so the user turn "a" is not followed
    by its assistant turn. *)
Theorem keypress_interleaves_turns :
  let token := Some (str "t") in
  let reply (s : jsstring) := Fulfilled (mkResponse (object [ (str "response", text s) ])) in
  exists cfg,
    P.run token [ P.change_textarea (str "a"); P.keypress_textarea (str "Enter") false;
                  P.change_textarea (str "b"); P.keypress_textarea (str "Enter") false;
                  P.process_prompt_settles (reply (str "reply to a"));
                  P.process_prompt_settles (reply (str "reply to b")) ]
          (P.mount token (str "p@x.y") 5) = Some cfg
    /\ P.chatHistory (P.ui cfg)
       = [ {| type := user; message := text (str "a") |};
           {| type := user; message := text (str "b") |};
           {| type := assistant; message := text (str "reply to a") |};
           {| type := assistant; message := text (str "reply to b") |} ]
    /\ P.renders (P.ui cfg) = true
    /\ P.outstanding cfg = 0.
Proof.
  simpl. eexists. split; [reflexivity|]. split; [reflexivity|]. split; reflexivity.
Qed.

(** ** Chat engine: re-entry while a round-trip is outstanding *)

(** The Send button is disabled while [loading] is set, so a click cannot
    start a second round-trip. *)
Lemma click_send_ignored_while_loading (token : option jsstring) (cfg : P.Config) :
  P.loading (P.ui cfg) = true ->
  P.step token P.click_send cfg = Some cfg.
Proof. intros H. simpl. unfold P.send_disabled. rewrite H. reflexivity. Qed.

(** [sendMessage] itself never reads [loading]. *)
Lemma sendMessage_ignores_loading (token : option jsstring) (st : P.State) (b : bool) :
  snd (P.sendMessage token (P.setLoading b st)) = snd (P.sendMessage token st)
  /\ P.chatHistory (fst (P.sendMessage token (P.setLoading b st)))
     = P.chatHistory (fst (P.sendMessage token st)).
Proof.
  unfold P.sendMessage. cbn [P.chatMessage P.setLoading].
  destruct (negb _); split; reflexivity.
Qed.

(** Pressing Enter without Shift on a non-blank input sends, whatever
    [loading] is. *)
Lemma handleKeyPress_sends_regardless (token : option jsstring) (st : P.State) :
  trim (P.chatMessage st) <> str "" ->
  P.handleKeyPress token (str "Enter") false st
  = (P.mkState (P.activeTab st) (str "")
               (P.chatHistory st ++ [ {| type := user; message := text (P.chatMessage st) |} ])
               true (P.appointments st) (P.history st) (P.sessionId st),
     [ preventDefault; Spec.chat_request token (P.chatMessage st) (P.sessionId st) ]).
Proof.
  intros Hne. unfold P.handleKeyPress. simpl.
  rewrite (sendMessage_non_blank token st Hne). reflexivity.
Qed.

(** C1 does not hold of the code: the keyboard handler calls [sendMessage]
    without looking at [loading]. After "hi" is sent with Enter and before
    its reply arrives, typing "again" and pressing Enter appends a second
    user turn and dispatches a second request, so two round-trips are
    outstanding. *)
Theorem keypress_sends_while_loading :
  let token := Some (str "t") in
  let sid := str "patient_p@x.y_5" in
  exists cfg1 cfg2,
    P.run token [ P.change_textarea (str "hi");
                  P.keypress_textarea (str "Enter") false ]
          (P.mount token (str "p@x.y") 5) = Some cfg1
    /\ P.loading (P.ui cfg1) = true
    /\ P.outstanding cfg1 = 1
    /\ P.run token [ P.change_textarea (str "again");
                     P.keypress_textarea (str "Enter") false ] cfg1 = Some cfg2
    /\ P.chatHistory (P.ui cfg2)
       = P.chatHistory (P.ui cfg1) ++ [ {| type := user; message := text (str "again") |} ]
    /\ List.filter is_post (P.trace cfg2)
       = [ Spec.chat_request token (str "hi") sid;
           Spec.chat_request token (str "again") sid ]
    /\ P.outstanding cfg2 = 2.
Proof.
  simpl. eexists. eexists.
  split; [reflexivity|]. split; [reflexivity|]. split; [reflexivity|].
  split; [reflexivity|]. split; [reflexivity|]. split; reflexivity.
Qed.

(** ** The two dashboards' chat engines *)

Lemma doctor_sendMessage_non_blank (token : option jsstring) (st : D.State) :
  trim (D.chatMessage st) <> str "" ->
  D.sendMessage token st
  = (D.mkState (D.activeTab st) (str "")
               (D.chatHistory st ++ [ {| type := user; message := text (D.chatMessage st) |} ])
               true (D.history st) (D.newSlot st) (D.sessionId st),
     [ Spec.chat_request token (D.chatMessage st) (D.sessionId st) ]).
Proof.
  intros Hne. unfold D.sendMessage.
  destruct (trim (D.chatMessage st)) eqn:E; [contradiction Hne; reflexivity|].
  reflexivity.
Qed.

(** C10. Take a patient state and a doctor state that agree on the input
    buffer, the transcript and the in-flight flag. Then [sendMessage] leaves
    them agreeing on these three, and dispatches in both the same thing:
    nothing for a blank input, otherwise the one request [{text,
    session_id}] with the same text and headers and each dashboard's own
    session identifier. For every settlement of the round-trip, fulfilled
    or rejected, the two continuations again agree on the three cells and
    perform the same effects (or both fail to render). The session
    identifiers built at mount are the same string after the role prefix. *)
Theorem chat_engines_agree
        (token : option jsstring) (ps : P.State) (ds : D.State) (o : Settled) :
  Spec.patient_view ps = Spec.doctor_view ds ->
  let dispatched (sid : jsstring) : list Effect :=
    if Spec.non_blank (P.chatMessage ps)
    then [ Spec.chat_request token (P.chatMessage ps) sid ] else [] in
  Spec.patient_view (fst (P.sendMessage token ps))
    = Spec.doctor_view (fst (D.sendMessage token ds))
  /\ snd (P.sendMessage token ps) = dispatched (P.sessionId ps)
  /\ snd (D.sendMessage token ds) = dispatched (D.sessionId ds)
  /\ Spec.same_result (P.sendMessage_settled token o ps) (D.sendMessage_settled token o ds)
  /\ forall (email : jsstring) (now : N),
      P.sessionId (P.initial email now)
        = str "patient_" ++ email ++ str "_" ++ Number_toString now
      /\ D.sessionId (D.initial email now)
        = str "doctor_" ++ email ++ str "_" ++ Number_toString now.
Proof.
  intros Hview dispatched. subst dispatched.
  unfold Spec.patient_view, Spec.doctor_view in Hview.
  injection Hview as Hinput Htranscript Hflag.
  split; [|split; [|split; [|split]]].
  - unfold P.sendMessage, D.sendMessage. rewrite <- Hinput.
    destruct (negb _); unfold Spec.patient_view, Spec.doctor_view; simpl;
      rewrite ?Hinput, ?Htranscript, ?Hflag; reflexivity.
  - unfold P.sendMessage. rewrite truthy_trim.
    destruct (Spec.non_blank _); reflexivity.
  - unfold D.sendMessage. rewrite <- Hinput, truthy_trim.
    destruct (Spec.non_blank _); reflexivity.
  - unfold P.sendMessage_settled, D.sendMessage_settled. destruct o as [r|err].
    + destruct (get (data r) (str "response")); simpl; [|reflexivity].
      unfold Spec.patient_view, Spec.doctor_view. simpl.
      rewrite Hinput, Htranscript. split; reflexivity.
    + simpl. unfold Spec.patient_view, Spec.doctor_view. simpl.
      rewrite Hinput, Htranscript. split; reflexivity.
  - intros email now. split; reflexivity.
Qed.

Lemma chat_engines_agree_witness :
  let ps := P.setChatMessage (str "Show fever patients") (P.initial (str "u@x.y") 9) in
  let ds := D.setChatMessage (str "Show fever patients") (D.initial (str "u@x.y") 9) in
  Spec.patient_view ps = Spec.doctor_view ds
  /\ Spec.patient_view (fst (P.sendMessage None ps))
     = Spec.doctor_view (fst (D.sendMessage None ds))
  /\ snd (P.sendMessage None ps)
     = [ Spec.chat_request None (str "Show fever patients") (str "patient_u@x.y_9") ]
  /\ snd (D.sendMessage None ds)
     = [ Spec.chat_request None (str "Show fever patients") (str "doctor_u@x.y_9") ].
Proof.
  intros ps ds.
  destruct (chat_engines_agree None ps ds (Rejected (mkError None)) eq_refl)
    as (Hview & Hp & Hd & _).
  split; [reflexivity|]. split; [exact Hview|]. split; [exact Hp|exact Hd].
Defined.

(** * Further properties of the code *)

(** ** The patient dashboard's event loop *)

Lemma patient_step_move (token : option jsstring) (ev : P.Event) (cfg cfg' : P.Config) :
  P.step token ev cfg = Some cfg' -> Observe.patient_move token cfg cfg'.
Proof.
  assert (Hstay : Observe.patient_move token cfg cfg).
  { apply (Observe.move_idle token cfg cfg []); try reflexivity.
    - symmetry. apply app_nil_r.
    - constructor. }
  assert (Hquiet : forall st out,
             P.chatHistory st = P.chatHistory (P.ui cfg) ->
             P.loading st = P.loading (P.ui cfg) ->
             P.sessionId st = P.sessionId (P.ui cfg) ->
             P.count_posts out = 0 ->
             Forall (fun e => e = preventDefault
                       \/ exists err, e = console_error (str "Error fetching history:") err)
                    out ->
             Observe.patient_move token cfg (P.after cfg (st, out))).
  { intros st out Hh Hl Hs Hc Hout.
    apply (Observe.move_idle token cfg _ out); try assumption; try reflexivity.
    unfold P.after. cbn [P.outstanding snd]. rewrite Hc. lia. }
  assert (Hsend : forall pre,
             trim (P.chatMessage (P.ui cfg)) <> str "" ->
             Forall (fun e => e = preventDefault) pre ->
             P.count_posts pre = 0 ->
             Observe.patient_move token cfg
               (P.after cfg (fst (P.sendMessage token (P.ui cfg)),
                             pre ++ snd (P.sendMessage token (P.ui cfg))))).
  { intros pre Hne Hpre Hc.
    rewrite (sendMessage_non_blank token (P.ui cfg) Hne).
    apply (Observe.move_send token cfg _ pre); try assumption; try reflexivity.
    unfold P.after, P.count_posts in *. cbn [P.outstanding snd fst].
    rewrite List.filter_app, length_app, Hc. simpl. lia. }
  intros Hstep. destruct ev; simpl in Hstep.
  - injection Hstep as <-. apply Hquiet; try reflexivity. constructor.
  - destruct (P.quickActions !! index); injection Hstep as <-; [|exact Hstay].
    apply Hquiet; try reflexivity. constructor.
  - injection Hstep as <-. apply Hquiet; try reflexivity. constructor.
  - injection Hstep as <-. unfold P.handleKeyPress.
    destruct (bool_decide (key = str "Enter") && negb shiftKey).
    + destruct (decide (trim (P.chatMessage (P.ui cfg)) = str "")) as [Hb|Hne].
      * rewrite (patient_sendMessage_blank token _ Hb).
        apply Hquiet; try reflexivity. constructor; [left; reflexivity|constructor].
      * specialize (Hsend [ preventDefault ] Hne).
        destruct (P.sendMessage token (P.ui cfg)) as [st' out]. apply Hsend.
        -- constructor; [reflexivity|constructor].
        -- reflexivity.
    + apply Hquiet; try reflexivity. constructor.
  - destruct (P.send_disabled (P.ui cfg)) eqn:Hd; injection Hstep as <-; [exact Hstay|].
    unfold P.send_disabled in Hd. apply orb_false_elim in Hd as [_ Hd].
    assert (Hne : trim (P.chatMessage (P.ui cfg)) <> str "").
    { intros Hb. rewrite Hb in Hd. discriminate Hd. }
    specialize (Hsend [] Hne).
    destruct (P.sendMessage token (P.ui cfg)) as [st' out]. apply Hsend; [constructor|reflexivity].
  - destruct (P.outstanding cfg) as [|n] eqn:Hn; [injection Hstep as <-; exact Hstay|].
    destruct o as [r|err]; simpl in Hstep.
    + destruct (get (data r) (str "response")) as [payload|]; [|discriminate Hstep].
      injection Hstep as <-.
      apply (Observe.move_reply token cfg _ {| type := assistant; message := payload |}
               [ Spec.history_request token ]); try reflexivity; [exact Hn|].
      left. split; reflexivity.
    + injection Hstep as <-.
      apply (Observe.move_reply token cfg _
               {| type := error;
                  message := or_else (error_detail err)
                                     (text (str "Error processing message")) |} []);
        try reflexivity; [exact Hn|].
      right. split; [reflexivity|]. split; [|reflexivity].
      unfold or_else. cbn [message]. destruct (truthy (error_detail err)) eqn:E; [exact E|reflexivity].
  - injection Hstep as <-. destruct o as [r|err]; simpl.
    + apply (Hquiet (P.setHistory (data r) (P.ui cfg)) []); try reflexivity. constructor.
    + apply (Hquiet (P.ui cfg) [ console_error (str "Error fetching history:") err ]);
        try reflexivity.
      constructor; [right; eexists; reflexivity|constructor].
Qed.

(** A property kept by every move is kept along every run. *)
Lemma patient_run_invariant (token : option jsstring) (I : P.Config -> Prop) :
  (forall cfg cfg', I cfg -> Observe.patient_move token cfg cfg' -> I cfg') ->
  forall evs cfg cfg', I cfg -> P.run token evs cfg = Some cfg' -> I cfg'.
Proof.
  intros Hkeep. induction evs as [|ev evs IH]; intros cfg cfg' HI Hrun; simpl in Hrun.
  - injection Hrun as <-. exact HI.
  - destruct (P.step token ev cfg) as [cfg1|] eqn:E; [|discriminate Hrun].
    apply (IH cfg1 cfg'); [|exact Hrun].
    apply (Hkeep cfg cfg1 HI). apply (patient_step_move token ev), E.
Qed.

Lemma count_type_snoc (t : TurnType) (h : list Turn) (turn : Turn) :
  Observe.count_type t (h ++ [ turn ])
  = Observe.count_type t h + (if Observe.is_type t turn then 1 else 0).
Proof.
  unfold Observe.count_type. rewrite List.filter_app, length_app. simpl.
  destruct (Observe.is_type t turn); reflexivity.
Qed.



(** X1. Whatever the user does and whatever the server answers, the
    patient dashboard keeps the session identifier it computed at mount, and
    everything it does to its surroundings is one of: [preventDefault], the
    history fetch, a [console.error] about a failed history fetch, or a chat
    request for a text that is not blank, carrying that session identifier
    and the authorization headers. In particular it never alerts and never
    posts a blank text. *)
Theorem patient_effects_confined
        (token : option jsstring) (email : jsstring) (now : N)
        (evs : list P.Event) (cfg : P.Config) :
  P.run token evs (P.mount token email now) = Some cfg ->
  P.sessionId (P.ui cfg) = P.sessionId (P.initial email now)
  /\ Forall (Observe.patient_effect token (P.sessionId (P.initial email now))) (P.trace cfg).
Proof.
  set (sid := P.sessionId (P.initial email now)).
  apply (patient_run_invariant token
           (fun c => P.sessionId (P.ui c) = sid
                     /\ Forall (Observe.patient_effect token sid) (P.trace c))).
  - intros c c' [Hsid Hall] Hmove.
    destruct Hmove as [out _ _ Hs _ Ht Hout | pre Hne _ _ Hs _ Ht Hpre
                      | turn out _ _ _ Hs Ht Hkind].
    + split; [congruence|]. rewrite Ht. apply Forall_app. split; [exact Hall|].
      eapply List.Forall_impl; [|exact Hout].
      intros e [->|Herr]; [left; reflexivity|right; right; left; exact Herr].
    + split; [congruence|]. rewrite Ht. apply Forall_app. split; [exact Hall|].
      apply Forall_app. split.
      * eapply List.Forall_impl; [|exact Hpre]. intros e ->. left. reflexivity.
      * constructor; [|constructor]. right. right. right.
        exists (P.chatMessage (P.ui c)). split; [exact Hne|]. rewrite Hsid. reflexivity.
    + split; [congruence|]. rewrite Ht. apply Forall_app. split; [exact Hall|].
      destruct Hkind as [[_ ->]|(_ & _ & ->)]; [|constructor].
      constructor; [|constructor]. right. left. reflexivity.
  - split; [reflexivity|]. constructor; [|constructor]. right. left. reflexivity.
Qed.

Lemma patient_effects_confined_witness :
  let evs := [ P.change_textarea (str "hi"); P.keypress_textarea (str "Enter") false;
               P.process_prompt_settles (Rejected (mkError None));
               P.prompt_history_settles (Rejected (mkError None)) ] in
  exists cfg,
    P.run None evs (P.mount None (str "p@x.y") 5) = Some cfg
    /\ P.sessionId (P.ui cfg) = str "patient_p@x.y_5"
    /\ Forall (Observe.patient_effect None (str "patient_p@x.y_5")) (P.trace cfg).
Proof.
  eexists. split; [reflexivity|].
  exact (patient_effects_confined None (str "p@x.y") 5
           [ P.change_textarea (str "hi"); P.keypress_textarea (str "Enter") false;
             P.process_prompt_settles (Rejected (mkError None));
             P.prompt_history_settles (Rejected (mkError None)) ] _ eq_refl).
Defined.

(** X2. In every state the patient dashboard can reach, each user turn is
    accounted for: the number of user turns equals the number of assistant
    turns plus the number of error turns plus the number of round-trips
    still outstanding. And the in-flight flag is never set with nothing
    outstanding. *)
Theorem patient_turns_balance
        (token : option jsstring) (email : jsstring) (now : N)
        (evs : list P.Event) (cfg : P.Config) :
  P.run token evs (P.mount token email now) = Some cfg ->
  Observe.count_type user (P.chatHistory (P.ui cfg))
  = Observe.count_type assistant (P.chatHistory (P.ui cfg))
    + Observe.count_type error (P.chatHistory (P.ui cfg))
    + P.outstanding cfg
  /\ (P.loading (P.ui cfg) = true -> 0 < P.outstanding cfg).
Proof.
  apply (patient_run_invariant token
           (fun c => Observe.count_type user (P.chatHistory (P.ui c))
                     = Observe.count_type assistant (P.chatHistory (P.ui c))
                       + Observe.count_type error (P.chatHistory (P.ui c))
                       + P.outstanding c
                     /\ (P.loading (P.ui c) = true -> 0 < P.outstanding c))).
  - intros c c' [Hbal Hflag] Hmove.
    destruct Hmove as [out Hh Hl _ Ho _ _ | pre _ Hh Hl _ Ho _ _
                      | turn out Ho Hh Hl _ _ Hkind].
    + rewrite Hh, Hl, Ho. split; assumption.
    + rewrite Hh, Ho, !count_type_snoc. simpl. split; [lia|]. intros _. lia.
    + rewrite Hh, Hl, !count_type_snoc. rewrite Ho in Hbal.
      split; [|discriminate].
      destruct turn as [ty msg]. simpl in Hkind.
      destruct Hkind as [[-> _]|(-> & _)]; simpl; lia.
  - split; [reflexivity|discriminate].
Qed.

Lemma patient_turns_balance_witness :
  let evs := [ P.change_textarea (str "a"); P.keypress_textarea (str "Enter") false;
               P.change_textarea (str "b"); P.keypress_textarea (str "Enter") false;
               P.process_prompt_settles (Rejected (mkError None)) ] in
  exists cfg,
    P.run None evs (P.mount None (str "p@x.y") 5) = Some cfg
    /\ Observe.count_type user (P.chatHistory (P.ui cfg)) = 2
    /\ Observe.count_type user (P.chatHistory (P.ui cfg))
       = Observe.count_type assistant (P.chatHistory (P.ui cfg))
         + Observe.count_type error (P.chatHistory (P.ui cfg))
         + P.outstanding cfg.
Proof.
  eexists. split; [reflexivity|]. split; [reflexivity|].
  exact (proj1 (patient_turns_balance None (str "p@x.y") 5
           [ P.change_textarea (str "a"); P.keypress_textarea (str "Enter") false;
             P.change_textarea (str "b"); P.keypress_textarea (str "Enter") false;
             P.process_prompt_settles (Rejected (mkError None)) ] _ eq_refl)).
Defined.



(** X4. The transcript only grows, and only at its end: after any run from
    any configuration the earlier transcript is a prefix of the later one.
    No event removes, reorders or rewrites a turn. *)
Theorem patient_transcript_append_only
        (token : option jsstring) (evs : list P.Event) (cfg cfg' : P.Config) :
  P.run token evs cfg = Some cfg' ->
  exists added : list Turn,
    P.chatHistory (P.ui cfg') = P.chatHistory (P.ui cfg) ++ added.
Proof.
  apply (patient_run_invariant token
           (fun c => exists added, P.chatHistory (P.ui c) = P.chatHistory (P.ui cfg) ++ added)).
  - intros c c' [added Hadded] Hmove.
    destruct Hmove as [out Hh _ _ _ _ _ | pre _ Hh _ _ _ _ _ | turn out _ Hh _ _ _ _].
    + exists added. congruence.
    + eexists. rewrite Hh, Hadded, <- app_assoc. reflexivity.
    + eexists. rewrite Hh, Hadded, <- app_assoc. reflexivity.
  - exists []. symmetry. apply app_nil_r.
Qed.

Lemma patient_transcript_append_only_witness :
  let evs := [ P.change_textarea (str "b"); P.keypress_textarea (str "Enter") false ] in
  let cfg := P.mkConfig
               (P.setChatHistory
                  (fun _ => [ {| type := user; message := text (str "a") |};
                              {| type := error; message := text (str "x") |} ])
                  (P.initial (str "p@x.y") 5)) 0 [] in
  exists cfg',
    P.run None evs cfg = Some cfg'
    /\ exists added, P.chatHistory (P.ui cfg') = P.chatHistory (P.ui cfg) ++ added.
Proof.
  eexists. split; [reflexivity|].
  exact (patient_transcript_append_only None
           [ P.change_textarea (str "b"); P.keypress_textarea (str "Enter") false ]
           _ _ eq_refl).
Defined.

(** X5. In every reachable state of the patient dashboard, each user turn
    holds a string that does not trim to the empty string, and each error
    turn holds a truthy message (so never an empty one): the server's detail
    or, failing that, the generic text. *)
Theorem patient_transcript_well_formed
        (token : option jsstring) (email : jsstring) (now : N)
        (evs : list P.Event) (cfg : P.Config) :
  P.run token evs (P.mount token email now) = Some cfg ->
  Forall (fun turn =>
            match type turn with
            | user => exists s, message turn = text s /\ trim s <> str ""
            | error => truthy (message turn) = true
            | assistant => True
            end)
         (P.chatHistory (P.ui cfg)).
Proof.
  apply (patient_run_invariant token
           (fun c => Forall (fun turn =>
                               match type turn with
                               | user => exists s, message turn = text s /\ trim s <> str ""
                               | error => truthy (message turn) = true
                               | assistant => True
                               end)
                            (P.chatHistory (P.ui c)))).
  - intros c c' Hall Hmove.
    destruct Hmove as [out Hh _ _ _ _ _ | pre Hne Hh _ _ _ _ _ | turn out _ Hh _ _ _ Hkind].
    + rewrite Hh. exact Hall.
    + rewrite Hh. apply Forall_app. split; [exact Hall|].
      constructor; [|constructor]. simpl. eexists. split; [reflexivity|exact Hne].
    + rewrite Hh. apply Forall_app. split; [exact Hall|].
      constructor; [|constructor].
      destruct Hkind as [[-> _]|(-> & Htruthy & _)]; [exact I|exact Htruthy].
  - constructor.
Qed.

Lemma patient_transcript_well_formed_witness :
  let err := mkError (Some (mkResponse (object [ (str "detail", text (str "")) ]))) in
  let evs := [ P.change_textarea (str " hi "); P.keypress_textarea (str "Enter") false;
               P.process_prompt_settles (Rejected err) ] in
  exists cfg,
    P.run None evs (P.mount None (str "p@x.y") 5) = Some cfg
    /\ P.chatHistory (P.ui cfg)
       = [ {| type := user; message := text (str " hi ") |};
           {| type := error; message := text (str "Error processing message") |} ]
    /\ Forall (fun turn =>
                 match type turn with
                 | user => exists s, message turn = text s /\ trim s <> str ""
                 | error => truthy (message turn) = true
                 | assistant => True
                 end)
              (P.chatHistory (P.ui cfg)).
Proof.
  eexists. split; [reflexivity|]. split; [reflexivity|].
  exact (patient_transcript_well_formed None (str "p@x.y") 5
           [ P.change_textarea (str " hi "); P.keypress_textarea (str "Enter") false;
             P.process_prompt_settles
               (Rejected (mkError (Some (mkResponse
                  (object [ (str "detail", text (str "")) ]))))) ] _ eq_refl).
Defined.

Lemma patient_sendMessage_frame (token : option jsstring) (st : P.State) :
  P.history (fst (P.sendMessage token st)) = P.history st
  /\ P.sessionId (fst (P.sendMessage token st)) = P.sessionId st
  /\ P.activeTab (fst (P.sendMessage token st)) = P.activeTab st.
Proof. unfold P.sendMessage. destruct (negb _); repeat split. Qed.

Lemma patient_step_history (token : option jsstring) (ev : P.Event) (cfg cfg' : P.Config) :
  P.step token ev cfg = Some cfg' ->
  P.history (P.ui cfg') = Observe.last_fetched [ ev ] (P.history (P.ui cfg)).
Proof.
  intros Hstep. destruct ev; simpl in Hstep.
  - injection Hstep as <-. reflexivity.
  - destruct (P.quickActions !! index); injection Hstep as <-; reflexivity.
  - injection Hstep as <-. reflexivity.
  - injection Hstep as <-. unfold P.handleKeyPress.
    destruct (_ && _); [|reflexivity].
    pose proof (patient_sendMessage_frame token (P.ui cfg)) as (Hh & _).
    destruct (P.sendMessage token (P.ui cfg)) as [st' out]. exact Hh.
  - destruct (P.send_disabled (P.ui cfg)); injection Hstep as <-; [reflexivity|].
    apply patient_sendMessage_frame.
  - destruct (P.outstanding cfg); [injection Hstep as <-; reflexivity|].
    destruct o as [r|err]; simpl in Hstep.
    + destruct (get (data r) (str "response")); [|discriminate Hstep].
      injection Hstep as <-. reflexivity.
    + injection Hstep as <-. reflexivity.
  - injection Hstep as <-. destruct o; reflexivity.
Qed.

Lemma last_fetched_cons (ev : P.Event) (evs : list P.Event) (h : value) :
  Observe.last_fetched (ev :: evs) h
  = Observe.last_fetched evs (Observe.last_fetched [ ev ] h).
Proof. destruct ev; try reflexivity. destruct o; reflexivity. Qed.

(** X6. After any run, the cached history collection is the body of the
    last history fetch that was fulfilled during the run, or the collection
    it started with if none was: each success replaces it wholesale, the
    last completion wins, and neither a failed fetch nor any chat activity
    changes it. *)
Theorem patient_history_last_fetched
        (token : option jsstring) (evs : list P.Event) (cfg cfg' : P.Config) :
  P.run token evs cfg = Some cfg' ->
  P.history (P.ui cfg') = Observe.last_fetched evs (P.history (P.ui cfg)).
Proof.
  revert cfg. induction evs as [|ev evs IH]; intros cfg Hrun; simpl in Hrun.
  - injection Hrun as <-. reflexivity.
  - destruct (P.step token ev cfg) as [cfg1|] eqn:E; [|discriminate Hrun].
    rewrite last_fetched_cons, <- (patient_step_history token ev cfg cfg1 E).
    apply IH, Hrun.
Qed.

Lemma patient_history_last_fetched_witness :
  let first := mkResponse (array [ text (str "old") ]) in
  let second := mkResponse (array [ text (str "new") ]) in
  let evs := [ P.prompt_history_settles (Fulfilled first);
               P.prompt_history_settles (Fulfilled second);
               P.prompt_history_settles (Rejected (mkError None));
               P.change_textarea (str "hi"); P.click_send ] in
  exists cfg',
    P.run None evs (P.mount None (str "p@x.y") 5) = Some cfg'
    /\ P.history (P.ui cfg') = array [ text (str "new") ].
Proof.
  eexists. split; [reflexivity|].
  exact (patient_history_last_fetched None
           [ P.prompt_history_settles (Fulfilled (mkResponse (array [ text (str "old") ])));
             P.prompt_history_settles (Fulfilled (mkResponse (array [ text (str "new") ])));
             P.prompt_history_settles (Rejected (mkError None));
             P.change_textarea (str "hi"); P.click_send ]
           (P.mount None (str "p@x.y") 5) _ eq_refl).
Defined.

Lemma patient_step_button_only (token : option jsstring) (ev : P.Event) (cfg cfg' : P.Config) :
  Observe.is_keypress ev = false ->
  P.outstanding cfg = (if P.loading (P.ui cfg) then 1 else 0) ->
  P.step token ev cfg = Some cfg' ->
  P.outstanding cfg' = (if P.loading (P.ui cfg') then 1 else 0).
Proof.
  intros Hkey Hinv Hstep. destruct ev; simpl in Hstep; try discriminate Hkey.
  - injection Hstep as <-. unfold P.after, P.count_posts. simpl. lia.
  - destruct (P.quickActions !! index); injection Hstep as <-; [|exact Hinv].
    unfold P.after, P.count_posts. simpl. lia.
  - injection Hstep as <-. unfold P.after, P.count_posts. simpl. lia.
  - destruct (P.send_disabled (P.ui cfg)) eqn:Hd; injection Hstep as <-; [exact Hinv|].
    unfold P.send_disabled in Hd. apply orb_false_elim in Hd as [Hl Hd].
    assert (Hne : trim (P.chatMessage (P.ui cfg)) <> str "").
    { intros Hb. rewrite Hb in Hd. discriminate Hd. }
    rewrite (sendMessage_non_blank token (P.ui cfg) Hne).
    rewrite Hl in Hinv. unfold P.after, P.count_posts. simpl. lia.
  - destruct (P.outstanding cfg) as [|n] eqn:Hn; [injection Hstep as <-; congruence|].
    assert (n = 0) as -> by (destruct (P.loading (P.ui cfg)); lia).
    destruct o as [r|err]; simpl in Hstep.
    + destruct (get (data r) (str "response")); [|discriminate Hstep].
      injection Hstep as <-. reflexivity.
    + injection Hstep as <-. reflexivity.
  - injection Hstep as <-. destruct o; unfold P.after, P.count_posts; simpl; lia.
Qed.

(** X7. As long as messages are sent with the Send button only (no key
    press reaches the text area), the in-flight flag tells the truth: in
    every reachable state exactly one round-trip is outstanding when the
    flag is set and none when it is clear, so at most one is ever
    outstanding. The button's [disabled] attribute is what ensures it. *)
Theorem patient_button_single_flight
        (token : option jsstring) (email : jsstring) (now : N)
        (evs : list P.Event) (cfg : P.Config) :
  Forall (fun ev => Observe.is_keypress ev = false) evs ->
  P.run token evs (P.mount token email now) = Some cfg ->
  P.outstanding cfg = (if P.loading (P.ui cfg) then 1 else 0)
  /\ P.outstanding cfg <= 1.
Proof.
  intros Hevs Hrun.
  assert (H : P.outstanding cfg = (if P.loading (P.ui cfg) then 1 else 0)).
  { revert Hrun. generalize (eq_refl : P.outstanding (P.mount token email now)
                                       = (if P.loading (P.ui (P.mount token email now))
                                          then 1 else 0)).
    generalize (P.mount token email now) as cfg0.
    induction Hevs as [|ev evs Hev _ IH]; intros cfg0 Hinv Hrun; simpl in Hrun.
    - injection Hrun as <-. exact Hinv.
    - destruct (P.step token ev cfg0) as [cfg1|] eqn:E; [|discriminate Hrun].
      apply (IH cfg1); [|exact Hrun].
      apply (patient_step_button_only token ev cfg0 cfg1 Hev Hinv E). }
  split; [exact H|]. rewrite H. destruct (P.loading (P.ui cfg)); lia.
Qed.

Lemma patient_button_single_flight_witness :
  let evs := [ P.change_textarea (str "hi"); P.click_send;
               P.change_textarea (str "again"); P.click_send ] in
  exists cfg,
    P.run None evs (P.mount None (str "p@x.y") 5) = Some cfg
    /\ P.loading (P.ui cfg) = true
    /\ P.chatMessage (P.ui cfg) = str "again"
    /\ P.outstanding cfg = 1.
Proof.
  eexists. split; [reflexivity|]. split; [reflexivity|]. split; [reflexivity|].
  refine (proj1 (patient_button_single_flight None (str "p@x.y") 5
           [ P.change_textarea (str "hi"); P.click_send;
             P.change_textarea (str "again"); P.click_send ] _ _ eq_refl)).
  repeat constructor.
Defined.

(** ** Keyboard and quick actions *)

(** X8. A key press in the text area dispatches a request exactly when the
    key is Enter, Shift is not held and the input is not blank. With Shift
    held, or for any other key, the handler does nothing at all: the state
    is returned as it was and not even [preventDefault] is called, so the
    key keeps its default effect (a line break for Shift+Enter). *)
Theorem handleKeyPress_sends_iff
        (token : option jsstring) (key : jsstring) (shiftKey : bool) (st : P.State) :
  (requests (snd (P.handleKeyPress token key shiftKey st)) <> []
   <-> key = str "Enter" /\ shiftKey = false /\ trim (P.chatMessage st) <> str "")
  /\ (key <> str "Enter" \/ shiftKey = true ->
      P.handleKeyPress token key shiftKey st = (st, [])).
Proof.
  unfold P.handleKeyPress.
  destruct (decide (key = str "Enter")) as [Hkey|Hkey];
    [rewrite (bool_decide_eq_true_2 _ Hkey)|rewrite (bool_decide_eq_false_2 _ Hkey)];
    destruct shiftKey; simpl.
  - split; [|reflexivity]. split; [intros H; contradiction H; reflexivity|].
    intros (_ & H & _). discriminate H.
  - split; [|intros [H|H]; [contradiction (H Hkey)|discriminate H]].
    destruct (decide (trim (P.chatMessage st) = str "")) as [Hb|Hne].
    + rewrite (patient_sendMessage_blank token st Hb). simpl.
      split; [intros H; contradiction H; reflexivity|].
      intros (_ & _ & H). contradiction (H Hb).
    + rewrite (sendMessage_non_blank token st Hne). simpl.
      split; [intros _; repeat split; assumption|discriminate].
  - split; [|reflexivity]. split; [intros H; contradiction H; reflexivity|].
    intros (H & _). contradiction (Hkey H).
  - split; [|reflexivity]. split; [intros H; contradiction H; reflexivity|].
    intros (H & _). contradiction (Hkey H).
Qed.

(** X9. Choosing a quick action only fills the input buffer: the
    transcript, the in-flight flag and the outstanding round-trips stay as
    they were and nothing is dispatched. Every canned text is non-blank, so
    pressing Enter next sends exactly that text: one user turn and one chat
    request carrying it. *)
Theorem quick_action_then_enter
        (token : option jsstring) (cfg : P.Config) (index : nat) (action : jsstring) :
  P.quickActions !! index = Some action ->
  exists cfg1 cfg2,
    P.step token (P.click_quick_action index) cfg = Some cfg1
    /\ P.chatMessage (P.ui cfg1) = action
    /\ P.chatHistory (P.ui cfg1) = P.chatHistory (P.ui cfg)
    /\ P.loading (P.ui cfg1) = P.loading (P.ui cfg)
    /\ P.outstanding cfg1 = P.outstanding cfg
    /\ P.trace cfg1 = P.trace cfg
    /\ P.step token (P.keypress_textarea (str "Enter") false) cfg1 = Some cfg2
    /\ P.chatHistory (P.ui cfg2)
       = P.chatHistory (P.ui cfg) ++ [ {| type := user; message := text action |} ]
    /\ P.trace cfg2
       = P.trace cfg ++ [ preventDefault;
                          Spec.chat_request token action (P.sessionId (P.ui cfg)) ].
Proof.
  intros Hidx.
  assert (Hne : trim action <> str "").
  { destruct index as [|[|[|index]]]; simpl in Hidx; try discriminate Hidx;
      injection Hidx as <-; vm_compute; discriminate. }
  set (cfg1 := P.after cfg (P.handleQuickAction action (P.ui cfg), [])).
  pose proof (handleKeyPress_sends_regardless token (P.ui cfg1) Hne) as Hk.
  exists cfg1, (P.after cfg1 (P.handleKeyPress token (str "Enter") false (P.ui cfg1))).
  split; [simpl; rewrite Hidx; reflexivity|].
  split; [reflexivity|]. split; [reflexivity|]. split; [reflexivity|].
  split; [unfold cfg1, P.after, P.count_posts; simpl; lia|].
  split; [apply app_nil_r|].
  split; [reflexivity|].
  rewrite Hk. unfold P.after. cbn [fst snd P.ui P.trace P.chatHistory].
  split; [reflexivity|].
  unfold cfg1, P.after. cbn [fst snd P.ui P.trace]. rewrite app_nil_r. reflexivity.
Qed.

Lemma quick_action_then_enter_witness :
  exists cfg1 cfg2,
    P.step None (P.click_quick_action 1) (P.mount None (str "p@x.y") 5) = Some cfg1
    /\ P.chatMessage (P.ui cfg1) = str "Show my appointments today"
    /\ P.step None (P.keypress_textarea (str "Enter") false) cfg1 = Some cfg2
    /\ P.chatHistory (P.ui cfg2)
       = [ {| type := user; message := text (str "Show my appointments today") |} ].
Proof.
  destruct (quick_action_then_enter None (P.mount None (str "p@x.y") 5) 1
              (str "Show my appointments today") eq_refl)
    as (cfg1 & cfg2 & H1 & Hmsg & _ & _ & _ & _ & H2 & Hh & _).
  exists cfg1, cfg2. split; [exact H1|]. split; [exact Hmsg|]. split; [exact H2|exact Hh].
Defined.

(** ** Session identifiers *)

Lemma digits_inj (u v : Decimal.uint) : digits u = digits v -> u = v.
Proof.
  revert v. induction u as [|u IH|u IH|u IH|u IH|u IH|u IH|u IH|u IH|u IH|u IH];
    intros v H; destruct v; simpl in H; try discriminate H; try reflexivity;
    injection H as H; f_equal; apply IH, H.
Qed.

Lemma Number_toString_inj (m n : N) : Number_toString m = Number_toString n -> m = n.
Proof.
  intros H. apply digits_inj in H.
  rewrite <- (DecimalN.Unsigned.of_to m), <- (DecimalN.Unsigned.of_to n), H. reflexivity.
Qed.

Lemma digits_no_underscore (u : Decimal.uint) : Forall (fun c => c <> 95%N) (digits u).
Proof. induction u; simpl; constructor; try assumption; discriminate. Qed.

(** Two strings that end in an underscore followed by an underscore-free
    tail are equal only if the parts before and after it are. *)
Lemma split_at_last_underscore (a b d1 d2 : jsstring) :
  Forall (fun c => c <> 95%N) d1 ->
  Forall (fun c => c <> 95%N) d2 ->
  a ++ 95%N :: d1 = b ++ 95%N :: d2 ->
  a = b /\ d1 = d2.
Proof.
  intros H1 H2. revert b. induction a as [|x a IH]; intros b H; destruct b as [|y b].
  - injection H as ->. split; reflexivity.
  - simpl in H. injection H as <- ->.
    apply Forall_app in H1 as [_ H1]. inversion H1 as [|? ? Hc _]. contradiction Hc; reflexivity.
  - simpl in H. injection H as -> <-.
    apply Forall_app in H2 as [_ H2]. inversion H2 as [|? ? Hc _]. contradiction Hc; reflexivity.
  - simpl in H. injection H as -> H. destruct (IH b H) as [-> ->]. split; reflexivity.
Qed.

Lemma sessionId_tail_inj (e1 e2 : jsstring) (n1 n2 : N) :
  e1 ++ str "_" ++ Number_toString n1 = e2 ++ str "_" ++ Number_toString n2 ->
  e1 = e2 /\ n1 = n2.
Proof.
  intros H. apply split_at_last_underscore in H as [He Hn];
    [|apply digits_no_underscore|apply digits_no_underscore].
  split; [exact He|apply Number_toString_inj, Hn].
Qed.

(** X10. The session identifier determines the e-mail and the instant it
    was built from: two mounts of a dashboard that differ in the user's
    e-mail or in [Date.now()] get different identifiers, for the patient
    and for the doctor dashboard alike. And a patient identifier is never
    a doctor identifier, whatever the e-mails and instants, equal or not. *)
Theorem sessionId_distinct (e1 e2 : jsstring) (n1 n2 : N) :
  (e1 <> e2 \/ n1 <> n2 ->
   P.sessionId (P.initial e1 n1) <> P.sessionId (P.initial e2 n2)
   /\ D.sessionId (D.initial e1 n1) <> D.sessionId (D.initial e2 n2))
  /\ P.sessionId (P.initial e1 n1) <> D.sessionId (D.initial e2 n2).
Proof.
  split.
  - intros Hdiff.
    assert (Hinj : e1 ++ str "_" ++ Number_toString n1
                   <> e2 ++ str "_" ++ Number_toString n2).
    { intros H. apply sessionId_tail_inj in H as [He Hn]. destruct Hdiff as [Hd|Hd]; auto. }
    split.
    + intros H. apply Hinj. exact (app_inv_head (str "patient_") _ _ H).
    + intros H. apply Hinj. exact (app_inv_head (str "doctor_") _ _ H).
  - intros H. discriminate H.
Qed.

Lemma sessionId_distinct_witness :
  P.sessionId (P.initial (str "p@x.y") 1724457600000)
  <> P.sessionId (P.initial (str "p@x.y") 1724457600001)
  /\ D.sessionId (D.initial (str "p@x.y") 1724457600000)
     <> D.sessionId (D.initial (str "p@x.y") 1724457600001)
  /\ P.sessionId (P.initial (str "p@x.y") 1724457600000)
     <> D.sessionId (D.initial (str "p@x.y") 1724457600000).
Proof.
  destruct (sessionId_distinct (str "p@x.y") (str "p@x.y") 1724457600000 1724457600001)
    as (Hdiff & _).
  destruct Hdiff as (Hp & Hd); [right; lia|].
  split; [exact Hp|]. split; [exact Hd|].
  exact (proj2 (sessionId_distinct (str "p@x.y") (str "p@x.y")
                  1724457600000 1724457600000)).
Defined.

(** ** The doctor's slot draft *)

Lemma delete_out_of_range {A} (l : list A) (i : nat) : length l <= i -> delete i l = l.
Proof.
  intros H. rewrite delete_take_drop, take_ge, drop_ge by lia. apply app_nil_r.
Qed.

Lemma setNewSlot_id (st : D.State) (f : D.SlotDraft -> D.SlotDraft) :
  f (D.newSlot st) = D.newSlot st -> D.setNewSlot f st = st.
Proof. intros H. unfold D.setNewSlot. rewrite H. destruct st; reflexivity. Qed.

Lemma filter_sublist {A} (p : A -> bool) (l : list A) : List.filter p l `sublist_of` l.
Proof.
  induction l as [|x l IH]; simpl; [constructor|].
  destruct (p x); [apply sublist_skip|apply sublist_cons]; exact IH.
Qed.

Lemma filter_non_blank_nonempty (l : list jsstring) :
  Exists (fun slot => trim slot <> str "") l -> List.filter Spec.non_blank l <> [].
Proof.
  induction 1 as [slot l Hne|slot l _ IH]; simpl.
  - destruct (Spec.non_blank slot) eqn:E; [discriminate|].
    apply non_blank_false_iff in E. contradiction (Hne E).
  - destruct (Spec.non_blank slot); [discriminate|exact IH].
Qed.

(** X11. [updateSlot(index, value)] overwrites the slot at [index] and
    nothing else: the sequence keeps its length, position [index] then holds
    [value], every other position holds what it held, the date is untouched;
    and for an [index] beyond the end the whole state is returned as it
    was (the sequence is not extended). *)
Theorem updateSlot_overwrites (index : nat) (v : jsstring) (st : D.State) :
  let before := D.slots (D.newSlot st) in
  let after := D.slots (D.newSlot (D.updateSlot index v st)) in
  length after = length before
  /\ (index < length before -> after !! index = Some v)
  /\ (forall j, j <> index -> after !! j = before !! j)
  /\ D.date (D.newSlot (D.updateSlot index v st)) = D.date (D.newSlot st)
  /\ (length before <= index -> D.updateSlot index v st = st).
Proof.
  intros before after. subst before after. rewrite updateSlot_slots.
  split; [apply length_insert|].
  split; [apply list_lookup_insert_eq|].
  split; [intros j Hj; apply list_lookup_insert_ne; congruence|].
  split; [reflexivity|].
  intros Hout. apply setNewSlot_id.
  rewrite Array_map_insert, list_insert_ge by exact Hout.
  destruct (D.newSlot st); reflexivity.
Qed.

(** X12. [removeSlotField(index)] removes exactly the slot at [index]: the
    slots before it and after it stay, in order, and the date is untouched;
    for an [index] beyond the end the whole state is returned as it was. *)
Theorem removeSlotField_deletes (index : nat) (st : D.State) :
  let before := D.slots (D.newSlot st) in
  let after := D.slots (D.newSlot (D.removeSlotField index st)) in
  after = take index before ++ drop (S index) before
  /\ (index < length before -> S (length after) = length before)
  /\ D.date (D.newSlot (D.removeSlotField index st)) = D.date (D.newSlot st)
  /\ (length before <= index -> D.removeSlotField index st = st).
Proof.
  intros before after. subst before after. rewrite removeSlotField_slots.
  split; [apply delete_take_drop|].
  split.
  - intros Hlt. rewrite length_delete by (apply lookup_lt_is_Some_2, Hlt). lia.
  - split; [reflexivity|].
    intros Hout. apply setNewSlot_id.
    rewrite Array_filter_delete, delete_out_of_range by exact Hout.
    destruct (D.newSlot st); reflexivity.
Qed.

(** X13. [addSlotField] appends one empty slot and keeps the others, and
    removing that new last slot again gives back the state exactly as it
    was before the addition. *)
Theorem addSlotField_then_remove (st : D.State) :
  D.slots (D.newSlot (D.addSlotField st)) = D.slots (D.newSlot st) ++ [ str "" ]
  /\ D.removeSlotField (length (D.slots (D.newSlot st))) (D.addSlotField st) = st.
Proof.
  split; [reflexivity|].
  destruct st as [tab msg hist load h [d l] sid].
  unfold D.removeSlotField, D.addSlotField, D.setNewSlot. simpl. f_equal. f_equal.
  rewrite Array_filter_delete.
  rewrite (delete_middle l [] (str "")). apply app_nil_r.
Qed.

(** X14. A request dispatched by [addAppointmentSlots] is never empty or
    padded with blanks: for a draft with a date and at least one non-blank
    slot, the list sent under the date is non-empty, each of its strings is
    non-blank after trimming, and it is a subsequence of the draft's slots
    (nothing added, nothing reordered). *)
Theorem addAppointmentSlots_sends_only_filled (token : option jsstring) (st : D.State) :
  Spec.valid (D.newSlot st) ->
  exists sent : list jsstring,
    snd (D.addAppointmentSlots token st)
    = [ axios_post (str "http://localhost:8000/appointments")
          (object [ (str "slots",
                     object [ (D.date (D.newSlot st), array (List.map text sent)) ]) ])
          (object [ (str "headers", D.getAuthHeaders token) ]) ]
    /\ sent <> []
    /\ Forall (fun slot => trim slot <> str "") sent
    /\ sent `sublist_of` D.slots (D.newSlot st)
    /\ D.date (D.newSlot st) <> str "".
Proof.
  intros Hvalid. exists (List.filter Spec.non_blank (D.slots (D.newSlot st))).
  split; [|split; [|split; [|split]]].
  - unfold D.addAppointmentSlots. rewrite (valid_passes _ Hvalid).
    unfold Array_filter.
    rewrite (filter_from_const (fun slot => truthy (text (trim slot)))). reflexivity.
  - apply filter_non_blank_nonempty, Hvalid.
  - apply List.Forall_forall. intros slot Hin. apply List.filter_In in Hin as [_ Hnb].
    intros Hb. apply non_blank_false_iff in Hb. congruence.
  - apply filter_sublist.
  - apply Hvalid.
Qed.

Lemma addAppointmentSlots_sends_only_filled_witness :
  let st := D.updateSlot 1 (str " 2PM-3PM")
              (D.addSlotField (D.changeDate (str "2025-08-24") (D.initial (str "dr@x.y") 1))) in
  exists sent,
    snd (D.addAppointmentSlots None st)
    = [ axios_post (str "http://localhost:8000/appointments")
          (object [ (str "slots",
                     object [ (str "2025-08-24", array (List.map text sent)) ]) ])
          (object [ (str "headers", D.getAuthHeaders None) ]) ]
    /\ sent <> []
    /\ Forall (fun slot => trim slot <> str "") sent.
Proof.
  intros st.
  assert (Hvalid : Spec.valid (D.newSlot st)).
  { split; [simpl; discriminate|]. simpl. right. left. vm_compute. discriminate. }
  destruct (addAppointmentSlots_sends_only_filled None st Hvalid)
    as (sent & Hout & Hne & Hall & _).
  exists sent. split; [exact Hout|]. split; [exact Hne|exact Hall].
Defined.

(** X15. After an accepted submission the draft is back to its empty
    default, which does not pass validation: submitting again without
    editing sends nothing and only alerts. After a rejected submission the
    draft is intact, so submitting again dispatches the very same request. *)
Theorem addAppointmentSlots_resubmit
        (token : option jsstring) (r : Response) (err : AxiosError) (st : D.State) :
  (let st' := fst (D.addAppointmentSlots_settled (Fulfilled r) st) in
   D.addAppointmentSlots token st'
   = (st', [ alert (text (str "Please provide date and at least one time slot")) ]))
  /\ (let st' := fst (D.addAppointmentSlots_settled (Rejected err) st) in
      D.addAppointmentSlots token st' = D.addAppointmentSlots token st).
Proof. split; reflexivity. Qed.

(** X16. The slot form and the chat engine of the doctor dashboard do not
    interfere. A slot-form event (editing, adding, removing, submitting, or
    the settlement of a submission) leaves the input buffer, the transcript,
    the in-flight flag, the cached history, the session identifier and the
    outstanding chat round-trips as they were; every other event leaves the
    draft as it was. *)
Theorem doctor_form_chat_independent
        (token : option jsstring) (ev : D.Event) (cfg cfg' : D.Config) :
  D.step token ev cfg = Some cfg' ->
  (Observe.is_slot_event ev = true ->
   Spec.doctor_view (D.ui cfg') = Spec.doctor_view (D.ui cfg)
   /\ D.history (D.ui cfg') = D.history (D.ui cfg)
   /\ D.sessionId (D.ui cfg') = D.sessionId (D.ui cfg)
   /\ D.outstanding cfg' = D.outstanding cfg)
  /\ (Observe.is_slot_event ev = false ->
      D.newSlot (D.ui cfg') = D.newSlot (D.ui cfg)).
Proof.
  intros Hstep. split; intros Hkind; destruct ev; try discriminate Hkind; simpl in Hstep.
  - injection Hstep as <-. repeat split. simpl. lia.
  - injection Hstep as <-. repeat split. simpl. lia.
  - destruct (D.remove_rendered index (D.ui cfg)); injection Hstep as <-;
      repeat split. simpl. lia.
  - injection Hstep as <-. repeat split. simpl. lia.
  - injection Hstep as <-. unfold D.addAppointmentSlots.
    destruct (_ || _); repeat split; simpl; lia.
  - injection Hstep as <-. destruct o; repeat split; simpl; lia.
  - injection Hstep as <-. reflexivity.
  - destruct (D.quickStatsQueries !! index); injection Hstep as <-; reflexivity.
  - injection Hstep as <-. reflexivity.
  - injection Hstep as <-. unfold D.handleKeyPress, D.sendMessage.
    destruct (_ && _); [|reflexivity]. destruct (negb _); reflexivity.
  - destruct (D.send_disabled (D.ui cfg)); injection Hstep as <-; [reflexivity|].
    unfold D.sendMessage. destruct (negb _); reflexivity.
  - destruct (D.outstanding cfg); [injection Hstep as <-; reflexivity|].
    destruct o as [r|err]; simpl in Hstep.
    + destruct (get (data r) (str "response")); [|discriminate Hstep].
      injection Hstep as <-. reflexivity.
    + injection Hstep as <-. reflexivity.
  - injection Hstep as <-. destruct o; reflexivity.
Qed.

Lemma doctor_form_chat_independent_witness :
  let cfg := D.mount None (str "dr@x.y") 1 in
  exists cfg',
    D.step None (D.change_slot 0 (str "9AM-10AM")) cfg = Some cfg'
    /\ Spec.doctor_view (D.ui cfg') = Spec.doctor_view (D.ui cfg)
    /\ D.outstanding cfg' = D.outstanding cfg.
Proof.
  eexists. split; [reflexivity|].
  destruct (proj1 (doctor_form_chat_independent None (D.change_slot 0 (str "9AM-10AM"))
                     (D.mount None (str "dr@x.y") 1) _ eq_refl) eq_refl)
    as (Hview & _ & _ & Hout).
  split; [exact Hview|exact Hout].
Defined.

(** ** App.js: routing and the stored token *)

Lemma truthy_get (v : value) (k : jsstring) :
  truthy v = true -> get v k = Some (get_opt v k).
Proof. destruct v; simpl; intros H; try discriminate H; reflexivity. Qed.

(** X17. Once the loading screen is gone, every route ends, after at most
    one redirect, on the same page: the login page when [user] is falsy,
    the doctor dashboard when [user.role] is the string "doctor", and the
    patient dashboard for every other truthy [user] (any other role, or no
    role at all). So no route shows a dashboard without a user, rendering
    never throws, and redirects never loop. While [loading] is set every
    route shows the loading screen. *)
Theorem routes_settle (st : App.State) (route : App.Route) (hops : nat) :
  (App.loading st = false ->
   App.settle (S hops) st route
   = if truthy (App.user st)
     then if App.is_doctor (get_opt (App.user st) (str "role"))
          then App.DoctorDashboard (App.user st)
          else App.PatientDashboard (App.user st)
     else App.Login)
  /\ (App.loading st = true -> App.settle hops st route = App.LoadingScreen).
Proof.
  split; intros Hl.
  - destruct st as [u l]. simpl in Hl. subst l.
    destruct route; simpl; unfold App.render; simpl;
      destruct (truthy u) eqn:Hu; simpl;
      try rewrite (truthy_get u _ Hu);
      try (destruct (App.is_doctor _); reflexivity);
      try reflexivity;
      destruct hops; simpl; unfold App.render; simpl; rewrite Hu; simpl;
      try rewrite (truthy_get u _ Hu);
      try (destruct (App.is_doctor _); reflexivity); reflexivity.
  - destruct hops; simpl; unfold App.render; rewrite Hl; reflexivity.
Qed.

Lemma routes_settle_witness :
  let doctor := object [ (str "email", text (str "dr@x.y")); (str "role", text (str "doctor")) ] in
  let other := object [ (str "email", text (str "p@x.y")); (str "role", text (str "Doctor")) ] in
  App.settle 1 (App.mkState doctor false) App.route_root = App.DoctorDashboard doctor
  /\ App.settle 1 (App.mkState other false) App.route_login = App.PatientDashboard other
  /\ App.settle 1 (App.mkState null false) App.route_dashboard = App.Login
  /\ App.settle 0 (App.mkState doctor true) App.route_dashboard = App.LoadingScreen.
Proof.
  intros doctor other.
  split; [exact (proj1 (routes_settle (App.mkState doctor false) App.route_root 0) eq_refl)|].
  split; [exact (proj1 (routes_settle (App.mkState other false) App.route_login 0) eq_refl)|].
  split; [exact (proj1 (routes_settle (App.mkState null false) App.route_dashboard 0) eq_refl)|].
  exact (proj2 (routes_settle (App.mkState doctor true) App.route_dashboard 0) eq_refl).
Defined.

Lemma app_step_loading (ev : App.Event) (cfg : App.Config) :
  App.loading (App.app (App.browser cfg))
    = match App.awaiting cfg with App.nothing => false | _ => true end ->
  App.loading (App.app (App.browser (App.step ev cfg)))
    = match App.awaiting (App.step ev cfg) with App.nothing => false | _ => true end.
Proof.
  intros Hinv. destruct ev as [o|o|u t|]; unfold App.step;
    destruct (App.awaiting cfg) eqn:Ha; try exact Hinv;
    try (rewrite Ha; exact Hinv);
    try (simpl; rewrite ?Ha; exact Hinv).
  - destruct o as [[|]|]; simpl; try reflexivity. exact Hinv.
  - destruct o; reflexivity.
Qed.

(** X18. The loading screen is shown exactly while [fetchUserInfo] is
    running: in every state [App] can reach from its mount, whatever was
    stored under [token], [loading] is set if and only if the fetch of the
    user or the parsing of its body is still awaited. Every way
    [fetchUserInfo] can end clears it. *)
Theorem loading_iff_fetching (stored : option jsstring) (evs : list App.Event) :
  let cfg := App.run evs (App.mount stored) in
  App.loading (App.app (App.browser cfg)) = true <-> App.awaiting cfg <> App.nothing.
Proof.
  intros cfg.
  assert (H : App.loading (App.app (App.browser cfg))
              = match App.awaiting cfg with App.nothing => false | _ => true end).
  { subst cfg. unfold App.run.
    assert (H0 : App.loading (App.app (App.browser (App.mount stored)))
                 = match App.awaiting (App.mount stored) with
                   | App.nothing => false | _ => true end).
    { destruct stored as [[|c t]|]; reflexivity. }
    revert H0. generalize (App.mount stored) as c.
    induction evs as [|ev evs IH]; intros c H0; simpl; [exact H0|].
    apply IH, app_step_loading, H0. }
  rewrite H. destruct (App.awaiting cfg); split; intros Hx; try reflexivity;
    try discriminate Hx; try discriminate; contradiction Hx; reflexivity.
Qed.

(** X19. With a non-empty token in storage, mounting [App] fetches the user
    once, with that token as bearer credential. If the fetch succeeds and
    its body parses, the parsed body becomes the user and the token stays
    stored. In each of the three ways it can fail (the fetch throws, the
    status is not ok, or the body does not parse) the token is removed from
    storage and the user stays [null]. In all four cases the loading screen
    is left. *)
Theorem fetchUserInfo_outcomes (tok : jsstring) (userData : value) :
  tok <> str "" ->
  let start := App.mount (Some tok) in
  let signed_out := App.mkBrowser (App.mkState null false) None in
  App.trace start
  = [ App.fetch (str "http://localhost:8000/users/me")
        (object [ (str "headers",
                   object [ (str "Authorization", text (str "Bearer " ++ tok)) ]) ]) ]
  /\ App.browser (App.run [ App.user_info_fetched (App.fetch_fulfilled true);
                            App.user_info_parsed (App.json_fulfilled userData) ] start)
     = App.mkBrowser (App.mkState userData false) (Some tok)
  /\ App.browser (App.run [ App.user_info_fetched App.fetch_rejected ] start) = signed_out
  /\ App.browser (App.run [ App.user_info_fetched (App.fetch_fulfilled false) ] start)
     = signed_out
  /\ App.browser (App.run [ App.user_info_fetched (App.fetch_fulfilled true);
                            App.user_info_parsed App.json_rejected ] start)
     = signed_out.
Proof.
  intros Hne start signed_out. subst start signed_out.
  destruct tok as [|c t]; [contradiction Hne; reflexivity|].
  repeat split.
Qed.

Lemma fetchUserInfo_outcomes_witness :
  let tok := str "abc" in
  let u := object [ (str "email", text (str "p@x.y")) ] in
  App.browser (App.run [ App.user_info_fetched (App.fetch_fulfilled true);
                         App.user_info_parsed (App.json_fulfilled u) ]
                       (App.mount (Some tok)))
  = App.mkBrowser (App.mkState u false) (Some tok)
  /\ App.browser (App.run [ App.user_info_fetched (App.fetch_fulfilled false) ]
                          (App.mount (Some tok)))
     = App.mkBrowser (App.mkState null false) None.
Proof.
  intros tok u.
  assert (Hne : tok <> str "") by (vm_compute; discriminate).
  destruct (fetchUserInfo_outcomes tok u Hne) as (_ & Hok & _ & Hbad & _).
  split; [exact Hok|exact Hbad].
Defined.

(** X20. Logging in stores the token and, when the user data is truthy,
    makes every route end on a dashboard; logging out removes the token and
    makes every route end on the login page, and it undoes a login
    completely: logout after login leaves the same state as logout alone.
    (Both act once the loading screen is gone.) *)
Theorem login_logout_routes
        (b : App.Browser) (userData : value) (tok : jsstring)
        (route : App.Route) (hops : nat) :
  App.loading (App.app b) = false ->
  App.token (App.handleLogin userData tok b) = Some tok
  /\ (truthy userData = true ->
      App.settle (S hops) (App.app (App.handleLogin userData tok b)) route
      = if App.is_doctor (get_opt userData (str "role"))
        then App.DoctorDashboard userData else App.PatientDashboard userData)
  /\ App.token (App.handleLogout b) = None
  /\ App.settle (S hops) (App.app (App.handleLogout b)) route = App.Login
  /\ App.handleLogout (App.handleLogin userData tok b) = App.handleLogout b.
Proof.
  intros Hl. destruct b as [[u l] t]. simpl in Hl. subst l.
  split; [reflexivity|]. split; [|split; [reflexivity|split; [|reflexivity]]].
  - intros Hu.
    destruct route; simpl; unfold App.render; simpl; rewrite Hu; simpl;
      rewrite ?(truthy_get userData _ Hu);
      try (destruct (App.is_doctor _); reflexivity);
      destruct hops; simpl; unfold App.render; simpl; rewrite Hu; simpl;
      rewrite ?(truthy_get userData _ Hu); destruct (App.is_doctor _); reflexivity.
  - destruct route; simpl; try reflexivity; destruct hops; reflexivity.
Qed.

Lemma login_logout_routes_witness :
  let b := App.browser (App.mount None) in
  let u := object [ (str "email", text (str "dr@x.y")); (str "role", text (str "doctor")) ] in
  App.settle 1 (App.app (App.handleLogin u (str "abc") b)) App.route_login
  = App.DoctorDashboard u
  /\ App.settle 1 (App.app (App.handleLogout (App.handleLogin u (str "abc") b)))
                  App.route_dashboard
     = App.Login.
Proof.
  intros b u.
  destruct (login_logout_routes b u (str "abc") App.route_login 0 eq_refl)
    as (_ & Hin & _ & _ & _).
  destruct (login_logout_routes (App.handleLogin u (str "abc") b) u (str "abc")
              App.route_dashboard 0 eq_refl) as (_ & _ & _ & Hout & _).
  split; [exact (Hin eq_refl)|exact Hout].
Defined.

(** ** Which inputs are sent *)

(** X21. [sendMessage] rejects exactly the inputs made of white space only
    (the empty input among them): it dispatches its request if and only if
    the input holds at least one code unit that is not white space, in both
    dashboards. *)
Theorem sendMessage_sends_iff (token : option jsstring) (ps : P.State) (ds : D.State) :
  (snd (P.sendMessage token ps) <> []
   <-> Exists (fun c => isWhiteSpace c = false) (P.chatMessage ps))
  /\ (snd (D.sendMessage token ds) <> []
      <-> Exists (fun c => isWhiteSpace c = false) (D.chatMessage ds)).
Proof.
  assert (Hblank : forall s : jsstring,
             trim s <> str "" <-> Exists (fun c => isWhiteSpace c = false) s).
  { intros s. rewrite trim_nil_iff. rewrite List.Exists_exists.
    split.
    - intros H. destruct (forallb isWhiteSpace s) eqn:E; [contradiction H; reflexivity|].
      clear H. induction s as [|c s IH]; simpl in E; [discriminate E|].
      destruct (isWhiteSpace c) eqn:Hc.
      + destruct (IH E) as (x & Hin & Hx). exists x. split; [right; exact Hin|exact Hx].
      + exists c. split; [left; reflexivity|exact Hc].
    - intros (x & Hin & Hx) H. rewrite forallb_forall in H.
      rewrite (H x Hin) in Hx. discriminate Hx. }
  split.
  - rewrite <- Hblank.
    destruct (decide (trim (P.chatMessage ps) = str "")) as [Hb|Hne].
    + rewrite (patient_sendMessage_blank token ps Hb). simpl.
      split; intros H; [contradiction H; reflexivity|contradiction (H Hb)].
    + rewrite (sendMessage_non_blank token ps Hne). simpl.
      split; intros _; [exact Hne|discriminate].
  - rewrite <- Hblank.
    destruct (decide (trim (D.chatMessage ds) = str "")) as [Hb|Hne].
    + rewrite (doctor_sendMessage_blank token ds Hb). simpl.
      split; intros H; [contradiction H; reflexivity|contradiction (H Hb)].
    + rewrite (doctor_sendMessage_non_blank token ds Hne). simpl.
      split; intros _; [exact Hne|discriminate].
Qed.
